(** * DexPack: the install / uninstall / verify commands and their trust gate

    A shallow embedding of [dexpack.py].  The module keeps two globals,
    [verified] (the one-shot confirmation) and [verified_packages] (the
    trust registry); the commands of the [DexPack] cog are coroutines that
    read and write them, talk to the GitHub contents API, write files and
    ask the bot to load or unload extensions.

    Commands are embedded as trees of atomic steps separated by [Await]
    marks, so that the same definition can be run to completion (one
    command on its own) or interleaved with other commands at its
    suspension points (the asyncio event loop). *)

From Stdlib Require Import ZArith Ascii String.
From stdpp Require Import base gmap strings list fin_maps pretty.

Local Open Scope Z_scope.

(** ** Python string methods *)

Module Str.

(** [s.startswith(p)] *)
Definition startswith (s p : string) : bool := String.prefix p s.

(** [s.replace(old, new)] for a non-empty [old]: occurrences are replaced
    left to right and do not overlap.  [skip] counts the characters of a
    matched occurrence that are still to be dropped. *)
Fixpoint replace_from (old new s : string) (skip : nat) : string :=
  match s with
  | EmptyString => EmptyString
  | String c s' =>
      match skip with
      | S n => replace_from old new s' n
      | O =>
          if String.prefix old s
          then new +:+ replace_from old new s' (String.length old - 1)
          else String c (replace_from old new s' 0)
      end
  end.

Definition replace (s old new : string) : string := replace_from old new s 0.

(** [s.split(sep)] for a non-empty [sep]. *)
Fixpoint split_from (sep s : string) (skip : nat) : list string :=
  match s with
  | EmptyString => [EmptyString]
  | String c s' =>
      match skip with
      | S n => split_from sep s' n
      | O =>
          if String.prefix sep s
          then EmptyString :: split_from sep s' (String.length sep - 1)
          else match split_from sep s' 0 with
               | h :: t => String c h :: t
               | [] => [String c EmptyString]
               end
      end
  end.

Definition split (s sep : string) : list string := split_from sep s 0.

Definition is_upper (c : ascii) : bool :=
  let n := nat_of_ascii c in (65 <=? n)%nat && (n <=? 90)%nat.

Definition is_lower (c : ascii) : bool :=
  let n := nat_of_ascii c in (97 <=? n)%nat && (n <=? 122)%nat.

Definition upper (c : ascii) : ascii :=
  if is_lower c then ascii_of_nat (nat_of_ascii c - 32) else c.

Definition lower (c : ascii) : ascii :=
  if is_upper c then ascii_of_nat (nat_of_ascii c + 32) else c.

(** [s.title()] on ASCII text: the first letter of every run of letters is
    upper-cased and the others lower-cased.  Bytes above 127 count as
    uncased. *)
Fixpoint title_from (s : string) (prev_cased : bool) : string :=
  match s with
  | EmptyString => EmptyString
  | String c s' =>
      if is_upper c || is_lower c
      then String (if prev_cased then lower c else upper c) (title_from s' true)
      else String c (title_from s' false)
  end.

Definition title (s : string) : string := title_from s false.

Fixpoint has_slash (s : string) : bool :=
  match s with
  | EmptyString => false
  | String c s' => if Ascii.eqb c "/" then true else has_slash s'
  end.

(** The directory part of a relative path: the text before its last
    ["/"], empty for a path without one. *)
Fixpoint dirname (s : string) : string :=
  match s with
  | EmptyString => EmptyString
  | String c s' => if has_slash s' then String c (dirname s') else EmptyString
  end.

(** The line feed of ["\n"]. *)
Definition nl : string := String "010" EmptyString.

End Str.

(** ** Data *)

(** The exceptions the commands can meet. *)
Inductive exn :=
| NameError (name : string)
| AttributeError (attr : string)
| IndexError
| KeyError (key : string)
| ValueError
| FileNotFoundError (path : string)
| FileExistsError (path : string)
| NotADirectoryError (path : string)
| IsADirectoryError (path : string)
| ConnectionError
| DecodeError
| YAMLError
| ExtensionNotLoaded (name : string)
| ExtensionAlreadyLoaded (name : string)
| ExtensionFailed (name : string).

Inductive outcome (A : Type) :=
| Returned (a : A)
| Raised (e : exn).
Arguments Returned {A} a.
Arguments Raised {A} e.

(** What [request_get] returns: the status code, and the value of
    [b64decode(request.json()["content"])] when that expression evaluates
    ([None] when it raises). *)
Record response := { status_code : Z; content : option string }.

(** [request_codes.ok] *)
Definition request_codes_ok : Z := 200.

(** [Package(yml)]: the keys of the manifest become attributes; a key that
    the manifest lacks is an attribute that is not there. *)
Record Package := {
  pkg_name : option string;
  pkg_description : option string;
  pkg_version : option string;
  pkg_author : option string;
  pkg_files : option (list string);
  pkg_supported : option (list string);
  pkg_color : option string;
  pkg_logo : option string }.

(** An element of the list [package_info]: a path segment of the link, or
    an item of [verified_packages]. *)
Inductive pyval :=
| PStr (s : string)
| PTuple (k v : string).

(** How an f-string shows a value (for a tuple: its items between plain
    single quotes). *)
Definition fmt (v : pyval) : string :=
  match v with
  | PStr s => s
  | PTuple k v => "('" +:+ k +:+ "', '" +:+ v +:+ "')"
  end.

(** [discord.Embed]; the timestamp is left out. *)
Record Embed := {
  title : string;
  description : string;
  color : Z;
  thumbnail : option string;
  footer : option string }.

Definition set_title (t : string) (e : Embed) : Embed :=
  {| title := t; description := description e; color := color e;
     thumbnail := thumbnail e; footer := footer e |}.
Definition set_description (d : string) (e : Embed) : Embed :=
  {| title := title e; description := d; color := color e;
     thumbnail := thumbnail e; footer := footer e |}.
Definition set_thumbnail (url : string) (e : Embed) : Embed :=
  {| title := title e; description := description e; color := color e;
     thumbnail := Some url; footer := footer e |}.
Definition set_footer (text : string) (e : Embed) : Embed :=
  {| title := title e; description := description e; color := color e;
     thumbnail := thumbnail e; footer := Some text |}.

(** [Color.red()] *)
Definition Color_red : Z := 15158332.

Inductive message :=
| Text (s : string)
| Rich (e : Embed).

(** What a command does to the outside, in the order it does it. *)
Inductive event :=
| EvSend (m : message)
| EvEdit (e : Embed)
| EvReact (emoji : string)
| EvGet (url : string)
| EvWarn (msg : string)
| EvLoad (name : string)
| EvReload (name : string)
| EvUnload (name : string)
| EvSync.

(** The working directory: relative paths as written (no normalisation),
    each a directory or a text file. *)
Inductive node :=
| Dir
| File (data : string).

(** The process: the two module globals, the files, the extensions the bot
    has loaded, and the events so far. *)
Record world := {
  verified : bool;
  verified_packages : gmap string string;
  fs : gmap string node;
  extensions : gset string;
  trace : list event }.

(** The value [script_settings] would hold.  The module reads that name
    at lines 85 and 231 and binds it nowhere (no assignment, no import):
    both reads raise [NameError]. *)
Record Settings := { safe_mode : bool; outdated_warnings : bool }.

(** What lies outside the module.  The remote answers by URL ([None]:
    the request itself raises).  [yaml] is [Package(yaml_load(c))]
    ([None]: it raises, and [yaml_error] is what it raises then: the
    error of the parser, or the one of [__dict__.update] for a document
    that is no mapping).  [utf8] and [color_from_str] are
    [bytes.decode("UTF-8")] and [Color.from_str] ([None]: they raise).
    [host_accepts] tells whether the bot can import and set up an
    extension; [wall_clock] is [time()] in milliseconds, as a function of
    the history. *)
Record env := {
  ballsdex_present : bool;
  settings_prefix : string;
  remote : string -> option response;
  yaml : string -> option Package;
  yaml_error : string -> exn;
  utf8 : string -> option string;
  color_from_str : string -> option Z;
  host_accepts : gmap string node -> string -> bool;
  wall_clock : list event -> Z }.

(** [dir_type = "ballsdex" if path.isdir("ballsdex") else "carfigures"] *)
Definition dir_type (E : env) : string :=
  if ballsdex_present E then "ballsdex" else "carfigures".

Definition with_verified (b : bool) (w : world) : world :=
  {| verified := b; verified_packages := verified_packages w; fs := fs w;
     extensions := extensions w; trace := trace w |}.
Definition with_verified_packages (m : gmap string string) (w : world) : world :=
  {| verified := verified w; verified_packages := m; fs := fs w;
     extensions := extensions w; trace := trace w |}.
Definition with_fs (f : gmap string node) (w : world) : world :=
  {| verified := verified w; verified_packages := verified_packages w; fs := f;
     extensions := extensions w; trace := trace w |}.
Definition with_extensions (x : gset string) (w : world) : world :=
  {| verified := verified w; verified_packages := verified_packages w; fs := fs w;
     extensions := x; trace := trace w |}.
Definition log (e : event) (w : world) : world :=
  {| verified := verified w; verified_packages := verified_packages w; fs := fs w;
     extensions := extensions w; trace := trace w ++ [e] |}.

(** ** Coroutines *)

(** A command is a tree of atomic steps on the process state.  [Await]
    marks a suspension point: the event loop may run other commands there,
    and nowhere else. *)
Inductive coro (A : Type) : Type :=
| Ret (a : A)
| Raise (e : exn)
| Sync {X : Type} (op : world -> X * world) (k : X -> coro A)
| Await (k : coro A).
Arguments Ret {A} a.
Arguments Raise {A} e.
Arguments Sync {A X} op k.
Arguments Await {A} k.

Fixpoint bind {A B : Type} (c : coro A) (f : A -> coro B) : coro B :=
  match c with
  | Ret a => f a
  | Raise e => Raise e
  | Sync op k => Sync op (fun x => bind (k x) f)
  | Await k => Await (bind k f)
  end.

#[global] Instance coro_ret : MRet coro := @Ret.
#[global] Instance coro_bind : MBind coro := fun A B f c => bind c f.

(** [try: c / except ...: h e]; [h] answers [None] for the exceptions the
    [except] clause does not name. *)
Fixpoint try_except {A : Type} (c : coro A) (h : exn -> option (coro A)) : coro A :=
  match c with
  | Ret a => Ret a
  | Raise e => match h e with Some c' => c' | None => Raise e end
  | Sync op k => Sync op (fun x => try_except (k x) h)
  | Await k => Await (try_except k h)
  end.

(** [for x in l: body x] *)
Fixpoint for_each {X : Type} (l : list X) (body : X -> coro unit) : coro unit :=
  match l with
  | [] => Ret tt
  | x :: l' => body x;; for_each l' body
  end.

(** One command on its own, from start to end. *)
Fixpoint run {A : Type} (c : coro A) (w : world) : outcome A * world :=
  match c with
  | Ret a => (Returned a, w)
  | Raise e => (Raised e, w)
  | Sync op k => let (x, w') := op w in run (k x) w'
  | Await k => run k w
  end.

(** A command up to its next suspension point. *)
Inductive task :=
| Running (c : coro unit)
| Finished (r : outcome unit).

Fixpoint resume (c : coro unit) (w : world) : task * world :=
  match c with
  | Ret a => (Finished (Returned a), w)
  | Raise e => (Finished (Raised e), w)
  | Sync op k => let (x, w') := op w in resume (k x) w'
  | Await k => (Running k, w)
  end.

(** The event loop: [schedule] names, step after step, the task that is
    resumed; it runs to its next suspension point.  The events of each
    step are recorded with the number of the task that made them. *)
Fixpoint event_loop (schedule : list nat) (tasks : list task) (w : world)
    (seen : list (nat * event)) : list task * world * list (nat * event) :=
  match schedule with
  | [] => (tasks, w, seen)
  | i :: rest =>
      match tasks !! i with
      | Some (Running c) =>
          let (t', w') := resume c w in
          event_loop rest (<[i := t']> tasks) w'
            (seen ++ (pair i <$> drop (length (trace w)) (trace w')))
      | _ => event_loop rest tasks w seen
      end
  end.

(** ** Primitive steps *)

Definition lift {A : Type} (r : outcome A) : coro A :=
  match r with
  | Returned a => Ret a
  | Raised e => Raise e
  end.

Definition prim {A : Type} (op : world -> outcome A * world) : coro A :=
  Sync op lift.

Definition emit (e : event) : coro unit :=
  Sync (fun w => (tt, log e w)) Ret.

(** [await c]: [c] takes effect, then the command is suspended. *)
Definition await {A : Type} (c : coro A) : coro A :=
  x ← c; Await (Ret x).

(** [l[i]] *)
Definition index {A : Type} (l : list A) (i : nat) : coro A :=
  match l !! i with
  | Some x => Ret x
  | None => Raise IndexError
  end.

(** [obj.attr] on a [Package] *)
Definition attribute {A : Type} (attr : string) (o : option A) : coro A :=
  match o with
  | Some x => Ret x
  | None => Raise (AttributeError attr)
  end.

Definition get_verified : coro bool :=
  Sync (fun w => (verified w, w)) Ret.

Definition put_verified (b : bool) : coro unit :=
  Sync (fun w => (tt, with_verified b w)) Ret.

Definition get_verified_packages : coro (gmap string string) :=
  Sync (fun w => (verified_packages w, w)) Ret.

(** [verified_packages[k] = v] *)
Definition set_item (k v : string) : coro unit :=
  Sync (fun w => (tt, with_verified_packages (<[k := v]> (verified_packages w)) w)) Ret.

(** [verified_packages[key]] *)
Definition get_item (key : pyval) : coro string :=
  prim (fun w =>
    match key with
    | PStr k =>
        match verified_packages w !! k with
        | Some v => (Returned v, w)
        | None => (Raised (KeyError (fmt key)), w)
        end
    | PTuple _ _ => (Raised (KeyError (fmt key)), w)
    end).

Definition ctx_send (m : message) : coro unit := emit (EvSend m).
Definition message_edit (e : Embed) : coro unit := emit (EvEdit e).
Definition add_reaction (emoji : string) : coro unit := emit (EvReact emoji).
Definition tree_sync : coro unit := emit EvSync.
Definition log_warning (msg : string) : coro unit := emit (EvWarn msg).

(** A name that is looked up and never bound. *)
Definition unbound {A : Type} (name : string) : coro A := Raise (NameError name).

(** An attribute that the object does not have. *)
Definition no_attribute {A : Type} (attr : string) : coro A := Raise (AttributeError attr).

(** [p] is a directory; the empty path is the working directory. *)
Definition is_dir (f : gmap string node) (p : string) : bool :=
  if decide (p = "") then true
  else match f !! p with Some Dir => true | _ => false end.

(** [p] is a file. *)
Definition is_file (f : gmap string node) (p : string) : bool :=
  match f !! p with Some (File _) => true | _ => false end.

(** Failure of a path lookup through its directory part. *)
Definition parent_error (f : gmap string node) (p : string) : option exn :=
  let d := Str.dirname p in
  if is_dir f d then None
  else if is_file f d then Some (NotADirectoryError p)
  else Some (FileNotFoundError p).

(** [mkdir(p)] *)
Definition mkdir (p : string) : coro unit :=
  prim (fun w =>
    match parent_error (fs w) p with
    | Some e => (Raised e, w)
    | None =>
        match fs w !! p with
        | Some _ => (Raised (FileExistsError p), w)
        | None => (Returned tt, with_fs (<[p := Dir]> (fs w)) w)
        end
    end).

(** [open(p, "w")]: the file is created, or emptied when it exists. *)
Definition open_w (p : string) : coro unit :=
  prim (fun w =>
    match parent_error (fs w) p with
    | Some e => (Raised e, w)
    | None =>
        match fs w !! p with
        | Some Dir => (Raised (IsADirectoryError p), w)
        | _ => (Returned tt, with_fs (<[p := File ""]> (fs w)) w)
        end
    end).

(** [file.write(text)] on the file opened at [p] *)
Definition file_write (p text : string) : coro unit :=
  Sync (fun w => (tt, with_fs (<[p := File text]> (fs w)) w)) Ret.

(** Whether [k] is [p] or lies below it. *)
Definition under (p k : string) : bool :=
  bool_decide (k = p) || Str.startswith k (p +:+ "/").

(** [rmtree(p)] *)
Definition rmtree (p : string) : coro unit :=
  prim (fun w =>
    match fs w !! p with
    | None => (Raised (FileNotFoundError p), w)
    | Some (File _) => (Raised (NotADirectoryError p), w)
    | Some Dir =>
        (Returned tt, with_fs (filter (fun kv => under p kv.1 = false) (fs w)) w)
    end).

Section Commands.

Variable E : env.

(** [request_get(url)] *)
Definition request_get (url : string) : coro response :=
  prim (fun w =>
    match remote E url with
    | Some r => (Returned r, log (EvGet url) w)
    | None => (Raised ConnectionError, log (EvGet url) w)
    end).

(** [b64decode(request.json()["content"])] *)
Definition b64decode_content (r : response) : coro string :=
  match content r with
  | Some c => Ret c
  | None => Raise DecodeError
  end.

(** [content.decode("UTF-8")] *)
Definition decode (c : string) : coro string :=
  match utf8 E c with
  | Some t => Ret t
  | None => Raise DecodeError
  end.

(** [yaml_load(content)] wrapped in [Package] *)
Definition yaml_load (c : string) : coro Package :=
  match yaml E c with
  | Some p => Ret p
  | None => Raise (yaml_error E c)
  end.

(** [Color.from_str(s)] *)
Definition Color_from_str (s : string) : coro Z :=
  match color_from_str E s with
  | Some c => Ret c
  | None => Raise ValueError
  end.

(** [time()] *)
Definition time : coro Z :=
  Sync (fun w => (wall_clock E (trace w), w)) Ret.

(** [with open(p, "w") as f: f.write(content.decode("UTF-8"))] *)
Definition write_decoded (p content : string) : coro unit :=
  open_w p;;
  text ← decode content;
  file_write p text.

(** [bot.load_extension(name)], as discord.py has it: an extension that
    the bot holds already is refused with [ExtensionAlreadyLoaded]; one
    that cannot be imported or set up fails.  The call is recorded
    either way. *)
Definition load_extension (name : string) : coro unit :=
  prim (fun w =>
    if decide (name ∈ extensions w) then (Raised (ExtensionAlreadyLoaded name), log (EvLoad name) w)
    else if host_accepts E (fs w) name
    then (Returned tt, with_extensions ({[name]} ∪ extensions w) (log (EvLoad name) w))
    else (Raised (ExtensionFailed name), log (EvLoad name) w)).

(** [bot.reload_extension(name)]: the extension must be loaded; when the
    new code fails the old module stays. *)
Definition reload_extension (name : string) : coro unit :=
  prim (fun w =>
    if decide (name ∈ extensions w)
    then if host_accepts E (fs w) name
         then (Returned tt, log (EvReload name) w)
         else (Raised (ExtensionFailed name), log (EvReload name) w)
    else (Raised (ExtensionNotLoaded name), log (EvReload name) w)).

(** [bot.unload_extension(name)]: a name under which nothing is loaded
    raises [ExtensionNotLoaded]. *)
Definition unload_extension (name : string) : coro unit :=
  prim (fun w =>
    if decide (name ∈ extensions w)
    then (Returned tt, with_extensions (extensions w ∖ {[name]}) (log (EvUnload name) w))
    else (Raised (ExtensionNotLoaded name), log (EvUnload name) w)).

End Commands.

(** ** The module and its commands *)

Section Cog.

Variable E : env.

(** [verify_packages()], called once when the module is imported.  The
    response is bound to [request]; the test reads [r], which nothing
    binds, and the loop splits [verified], the boolean. *)
Definition verify_packages : coro unit :=
  request ← request_get E "https://api.github.com/repos/Dotsian/DexPack/contents/verified.txt";
  r ← unbound (A := response) "r";
  if negb (status_code r =? request_codes_ok) then
    log_warning "Failed to verify packages."
  else
    _ ← get_verified;
    lines ← no_attribute (A := list string) "split";
    for_each lines (fun line =>
      if Str.startswith line "#" || bool_decide (line = "") then Ret tt
      else
        let split := Str.split line " : " in
        repo ← index split 1;
        name ← index split 0;
        set_item name ("https://github.com/" +:+ repo)).

(** [DexPack.uninstall] *)
Definition uninstall (package : string) : coro unit :=
  let embed :=
    {| title := "Removed " +:+ Str.title package;
       description := "The " +:+ Str.title package +:+ " package has been removed from your bot.";
       color := Color_red; thumbnail := None; footer := None |} in
  rmtree (dir_type E +:+ "/packages/" +:+ package);;
  await (unload_extension (dir_type E +:+ "/packages/" +:+ package));;
  await tree_sync;;
  await (ctx_send (Rich embed)).

(** The reaction of [verify]: the seven bytes of the literal at line 191
    (c3 a2, c5 93, e2 80 a6). *)
Definition check_mark : string :=
  String (ascii_of_nat 195) (String (ascii_of_nat 162)
    (String (ascii_of_nat 197) (String (ascii_of_nat 147)
      (String (ascii_of_nat 226) (String (ascii_of_nat 128)
        (String (ascii_of_nat 166) EmptyString)))))).

(** [DexPack.verify] *)
Definition verify : coro unit :=
  put_verified true;;
  await (add_reaction check_mark).

Definition caution : string :=
  "**CAUTION:** this package has not been verified. " +:+
  "Are you sure you want to install this package?" +:+ Str.nl +:+
  "All packages you install can modify your Discord bot." +:+ Str.nl +:+
  "Run the `" +:+ settings_prefix E +:+ "verify` comamnd to verify " +:+
  "you want to install this package.".

Definition file_failed (file author : string) (code : Z) : string :=
  "Failed to install the `" +:+ file +:+ "` file." +:+ Str.nl +:+
  "Report this issue to `" +:+ author +:+ "`." +:+ Str.nl +:+
  "```ERROR CODE: " +:+ pretty code +:+ "```".

Definition manifest_failed (repo owner : string) (code : Z) : string :=
  "Failed to install " +:+ repo +:+ "." +:+ Str.nl +:+
  "Report this issue to `" +:+ owner +:+ "`." +:+ Str.nl +:+
  "```ERROR CODE: " +:+ pretty code +:+ "```".

(** [DexPack.install], the end: the extension is loaded, or reloaded when
    the bot has it already, and the message is edited. *)
Definition install_activate (original_name : pyval) (package_info : Package)
    (embed : Embed) (t1 : Z) : coro unit :=
  try_except
    (name ← attribute "name" (pkg_name package_info);
     await (load_extension E (dir_type E +:+ ".packages." +:+ name)))
    (fun e =>
       match e with
       | ExtensionAlreadyLoaded _ =>
           Some (name ← attribute "name" (pkg_name package_info);
                 await (reload_extension E (dir_type E +:+ ".packages." +:+ name)))
       | _ => None
       end);;
  t2 ← time E;
  let embed := set_title (fmt original_name +:+ " Installed") embed in
  description ← attribute "description" (pkg_description package_info);
  let embed :=
    set_description
      (fmt original_name +:+ " has been installed to your bot" +:+ Str.nl +:+ description) embed in
  let embed :=
    set_footer (fmt original_name +:+ " took " +:+ pretty (t2 - t1) +:+ "ms to install") embed in
  await (message_edit embed).

(** The body of [for file in package_info.files]. *)
Definition install_file (link : string) (package_info : Package) (file : string) : coro unit :=
  name ← attribute "name" (pkg_name package_info);
  let file_path := name +:+ "/" +:+ file in
  request_content ← request_get E (link +:+ file_path);
  if status_code request_content =? request_codes_ok then
    content ← b64decode_content request_content;
    write_decoded E (dir_type E +:+ "/packages/" +:+ file_path) content
  else
    author ← attribute "author" (pkg_author package_info);
    await (ctx_send (Text (file_failed file author (status_code request_content)))).

(** [DexPack.install], from [mkdir] on. *)
Definition install_files (original_name : pyval) (link : string) (package_info : Package)
    (embed : Embed) (t1 : Z) : coro unit :=
  try_except
    (name ← attribute "name" (pkg_name package_info);
     mkdir (dir_type E +:+ "/packages/" +:+ name))
    (fun e => match e with FileExistsError _ => Some (Ret tt) | _ => None end);;
  files ← attribute "files" (pkg_files package_info);
  for_each files (install_file link package_info);;
  install_activate original_name package_info embed t1.

(** [DexPack.install], from the platform check on: the manifest must
    support this kind of bot; the installation is announced. *)
Definition install_platform (original_name : pyval) (link : string) (package_info : Package)
    (t1 : Z) : coro unit :=
  supported ← attribute "supported" (pkg_supported package_info);
  if negb (bool_decide (dir_type E ∈ supported)) then
    await (ctx_send (Text ("This package does not support " +:+ dir_type E +:+ ".")))
  else
    let color := default "03BAFC" (pkg_color package_info) in
    c ← Color_from_str E ("#" +:+ color);
    let embed :=
      {| title := "Installing " +:+ fmt original_name;
         description :=
           fmt original_name +:+ " is being installed on your bot." +:+ Str.nl +:+
           "Please do not turn off your bot.";
         color := c; thumbnail := None; footer := None |} in
    let embed :=
      match pkg_logo package_info with
      | Some logo => set_thumbnail logo embed
      | None => embed
      end in
    await (ctx_send (Rich embed));;
    install_files original_name link package_info embed t1.

(** [DexPack.install], from [t1 = time()] on: the manifest is fetched,
    stored and parsed. *)
Definition install_manifest (original_name : pyval) (package_info : list pyval) : coro unit :=
  t1 ← time E;
  owner ← index package_info 0;
  repo ← index package_info 1;
  let link :=
    "https://api.github.com/repos/" +:+ fmt owner +:+ "/" +:+ fmt repo +:+ "/contents/" in
  request ← request_get E (link +:+ "package.yml");
  if status_code request =? request_codes_ok then
    content ← b64decode_content request;
    write_decoded E (dir_type E +:+ "/data/" +:+ fmt repo +:+ ".yml") content;;
    package_info ← yaml_load E content;
    install_platform original_name link package_info t1
  else
    await (ctx_send (Text (manifest_failed (fmt repo) (fmt owner) (status_code request)))).

(** [DexPack.install], from [if is_verified:] on (line 242): the
    reference of the registry is put in, the confirmation is used up,
    and the manifest is fetched. *)
Definition install_proceed (is_verified : bool) (original_name : pyval)
    (package_info : list pyval) : coro unit :=
  package_info ←
    (if is_verified then
       url ← get_item original_name;
       _ ← index package_info 1;
       Ret (<[1%nat := PStr url]> package_info)
     else Ret package_info);
  v ← get_verified;
  (if v : bool then put_verified false else Ret tt);;
  install_manifest original_name package_info.

(** [DexPack.install], from [original_name = package_info[1]] on: the
    trust gate.  Its test reads [script_settings] first, a name that is
    bound nowhere. *)
Definition install_gate (is_verified : bool) (package_info : list pyval) : coro unit :=
  original_name ← index package_info 1;
  script_settings ← unbound (A := Settings) "script_settings";
  v ← get_verified;
  if safe_mode script_settings && negb v && negb is_verified then
    await (ctx_send (Text caution))
  else
    install_proceed is_verified original_name package_info.

(** [DexPack.install] *)
Definition install (package : string) : coro unit :=
  if Str.startswith package "https://github.com/" then
    install_gate false (PStr <$> Str.split (Str.replace package "https://github.com/" "") "/")
  else
    items ← get_verified_packages;
    let found_package := filter (fun x : string * string => x.1 = package) (map_to_list items) in
    exists_ ←
      try_except (_ ← index found_package 0; Ret true)
        (fun e => match e with IndexError => Some (Ret false) | _ => None end);
    if negb exists_ then
      await (ctx_send (Text "The link you sent is not a valid GitHub link."))
    else
      install_gate true ((fun x : string * string => PTuple x.1 x.2) <$> found_package).

End Cog.

Arguments install_gate : simpl never.
Arguments install_proceed : simpl never.
Arguments install_manifest : simpl never.
Arguments install_platform : simpl never.
Arguments install_files : simpl never.
Arguments install_file : simpl never.
Arguments install_activate : simpl never.

(** ** The other commands of the module *)

(** The characters [str.rstrip()] removes, among the first 128. *)
Definition is_space (c : ascii) : bool :=
  let n := nat_of_ascii c in
  ((9 <=? n)%nat && (n <=? 13)%nat) || ((28 <=? n)%nat && (n <=? 32)%nat).

(** [s.rstrip()] *)
Fixpoint rstrip (s : string) : string :=
  match s with
  | EmptyString => EmptyString
  | String c s' =>
      match rstrip s' with
      | EmptyString => if is_space c then EmptyString else String c EmptyString
      | r => String c r
      end
  end.

(** The double quote, as a string. *)
Definition dquote : string := String (ascii_of_nat 34) EmptyString.

(** [__version__ = "0.1"] *)
Definition __version__ : string := "0.1".

Definition set_color (c : Z) (e : Embed) : Embed :=
  {| title := title e; description := description e; color := c;
     thumbnail := thumbnail e; footer := footer e |}.

(** [path.isfile(p)] *)
Definition path_isfile (p : string) : coro bool :=
  Sync (fun w => (is_file (fs w) p, w)) Ret.

(** [Path(p).read_text()] *)
Definition read_text (p : string) : coro string :=
  prim (fun w =>
    match fs w !! p with
    | Some (File data) => (Returned data, w)
    | Some Dir => (Raised (IsADirectoryError p), w)
    | None => (Raised (FileNotFoundError p), w)
    end).

Section Views.

Variable E : env.

(** [fetch_package(name)]: [None] when the manifest file is not there. *)
Definition fetch_package (name : string) : coro (option Package) :=
  let package_path := dir_type E +:+ "/data/" +:+ name +:+ ".yml" in
  isfile ← path_isfile package_path;
  if negb isfile then Ret None
  else
    text ← read_text (dir_type E +:+ "/data/" +:+ name +:+ ".yml");
    package ← yaml_load E text;
    Ret (Some package).

Definition outdated_notice (new_version : string) : string :=
  "DexPack v" +:+ __version__ +:+ " is outdated. " +:+
  "Please update to v" +:+ new_version +:+ " " +:+
  "using `" +:+ settings_prefix E +:+ "update-dp`.".

(** [DexPack.check_version()].  Its first line reads [script_settings],
    bound nowhere; further down the response is bound to [request] and
    read as [r]. *)
Definition check_version : coro (option string) :=
  script_settings ← unbound (A := Settings) "script_settings";
  if negb (outdated_warnings script_settings) then Ret None
  else
    request ← request_get E "https://api.github.com/repos/Dotsian/DexPack/contents/pyproject.toml";
    r ← unbound (A := response) "r";
    if negb (status_code r =? request_codes_ok) then Ret None
    else
      bytes ← b64decode_content r;
      text ← decode E bytes;
      let content := rstrip text in
      after ← index (Str.split content ("version = " +:+ dquote)) 1;
      new_version ← index (Str.split after dquote) 0;
      if negb (bool_decide (new_version = __version__))
      then Ret (Some (outdated_notice new_version))
      else Ret None.

Definition about_dexpack : string :=
  "DexPack, derived from DexScript, is a set of commands created by DotZZ " +:+
  "that allows you to easily install packages for your Ballsdex bot." +:+ Str.nl +:+ Str.nl +:+
  "For a guide on how to use DexPack, use the `/help` command.".

(** [DexPack.view] *)
Definition view (package : string) : coro unit :=
  c ← Color_from_str E "#03BAFC";
  let embed :=
    {| title := "DexPack - ALPHA"; description := about_dexpack; color := c;
       thumbnail := None; footer := None |} in
  notice ← check_version;
  let version_check := match notice with Some _ => "OUTDATED" | None => "LATEST" end in
  let embed := set_thumbnail "https://i.imgur.com/uKfx0qO.png" embed in
  let embed := set_footer ("DexPack " +:+ __version__ +:+ " (" +:+ version_check +:+ ")") embed in
  if negb (bool_decide (package = "DexPack")) then
    info ← fetch_package package;
    match info with
    | None => await (ctx_send (Text "The package you entered does not exist."))
    | Some info =>
        let color := default "03BAFC" (pkg_color info) in
        let embed := set_title package embed in
        description ← attribute "description" (pkg_description info);
        let embed := set_description description embed in
        c ← Color_from_str E ("#" +:+ color);
        let embed := set_color c embed in
        let embed :=
          match pkg_logo info with
          | Some logo => set_thumbnail logo embed
          | None => embed
          end in
        version ← attribute "version" (pkg_version info);
        let embed := set_footer (package +:+ " " +:+ version) embed in
        await (ctx_send (Rich embed))
    end
  else await (ctx_send (Rich embed)).

(** [DexPack.update_dp].  [eval] is the bot's own [eval] command, to
    which the downloaded installer would be handed. *)
Definition update_dp (eval : string -> coro unit) : coro unit :=
  request ← request_get E "https://api.github.com/repos/Dotsian/DexPack/contents/installer.py";
  r ← unbound (A := response) "r";
  if status_code r =? request_codes_ok then
    content ← b64decode_content r;
    body ← decode E content;
    await (eval body)
  else
    await (ctx_send (Text (
      "Failed to update DexPack." +:+ Str.nl +:+
      "Report this issue to `dot_zz` on Discord." +:+ Str.nl +:+
      "```ERROR CODE: " +:+ pretty (status_code request) +:+ "```"))).

(** The commands an owner can send. *)
Inductive command :=
| DoView (package : string)
| DoInstall (package : string)
| DoUninstall (package : string)
| DoVerify
| DoUpdate.

Definition perform (eval : string -> coro unit) (c : command) : coro unit :=
  match c with
  | DoView package => view package
  | DoInstall package => install E package
  | DoUninstall package => uninstall E package
  | DoVerify => verify
  | DoUpdate => update_dp eval
  end.

(** Commands handled one after the other, each to its end; an exception
    ends the command that raised it and no more. *)
Fixpoint session (eval : string -> coro unit) (cs : list command) (w : world) : world :=
  match cs with
  | [] => w
  | c :: cs' => session eval cs' (run (perform eval c) w).2
  end.

End Views.

(** ** Sample inputs *)

Module Sample.

Definition widgets : Package :=
  {| pkg_name := Some "widgets"; pkg_description := Some "Widgets for your dex.";
     pkg_version := Some "1.0"; pkg_author := Some "acme";
     pkg_files := Some ["__init__.py"; "cog.py"; "extra.py"];
     pkg_supported := Some ["ballsdex"]; pkg_color := None; pkg_logo := None |}.

(** A package for the other kind of bot. *)
Definition gadgets : Package :=
  {| pkg_name := Some "gadgets"; pkg_description := Some "Gadgets for your cars.";
     pkg_version := Some "0.3"; pkg_author := Some "acme";
     pkg_files := Some ["__init__.py"];
     pkg_supported := Some ["carfigures"]; pkg_color := None; pkg_logo := None |}.

(** A remote that holds [acme/widgets] without its [extra.py], and the
    manifest of [acme/gadgets]. *)
Definition github_api (url : string) : option response :=
  if decide (url = "https://api.github.com/repos/acme/widgets/contents/package.yml")
  then Some {| status_code := 200; content := Some "name: widgets" |}
  else if decide (url = "https://api.github.com/repos/acme/gadgets/contents/package.yml")
  then Some {| status_code := 200; content := Some "name: gadgets" |}
  else if decide (url = "https://api.github.com/repos/acme/widgets/contents/widgets/__init__.py")
  then Some {| status_code := 200; content := Some "from .cog import setup" |}
  else if decide (url = "https://api.github.com/repos/acme/widgets/contents/widgets/cog.py")
  then Some {| status_code := 200; content := Some "async def setup(bot): pass" |}
  else Some {| status_code := 404; content := None |}.

Definition bot : env :=
  {| ballsdex_present := true; settings_prefix := "b.";
     remote := github_api;
     yaml := fun c =>
       if decide (c = "name: widgets") then Some widgets
       else if decide (c = "name: gadgets") then Some gadgets
       else None;
     yaml_error := fun _ => YAMLError;
     utf8 := Some;
     color_from_str := fun s => if decide (s = "#03BAFC") then Some 244476 else None;
     host_accepts := fun _ _ => true;
     wall_clock := fun t => Z.of_nat (length t) |}.

(** A bot that has installed nothing yet. *)
Definition fresh : world :=
  {| verified := false; verified_packages := ∅;
     fs := {[ "ballsdex/data" := Dir; "ballsdex/packages" := Dir ]};
     extensions := ∅; trace := [] |}.

(** The same bot with one registry entry, as [verify_packages] means to
    leave it. *)
Definition registered : world :=
  with_verified_packages {[ "widgets" := "https://github.com/acme/widgets" ]} fresh.

(** The same bot after [widgets] was installed. *)
Definition installed : world :=
  {| verified := false; verified_packages := ∅;
     fs := {[ "ballsdex/data" := Dir; "ballsdex/packages" := Dir;
              "ballsdex/data/widgets.yml" := File "name: widgets";
              "ballsdex/packages/widgets" := Dir;
              "ballsdex/packages/widgets/__init__.py" := File "from .cog import setup";
              "ballsdex/packages/widgets/cog.py" := File "async def setup(bot): pass" ]};
     extensions := {[ "ballsdex.packages.widgets" ]}; trace := [] |}.

(** A host that takes no text as UTF-8 and no extension. *)
Definition picky_bot : env :=
  {| ballsdex_present := true; settings_prefix := "b.";
     remote := github_api;
     yaml := fun c => if decide (c = "name: widgets") then Some widgets else None;
     yaml_error := fun _ => YAMLError;
     utf8 := fun _ => None;
     color_from_str := fun s => if decide (s = "#03BAFC") then Some 244476 else None;
     host_accepts := fun _ _ => false;
     wall_clock := fun t => Z.of_nat (length t) |}.

(** A package with a file in a subdirectory, and a remote that has
    every file. *)
Definition tools : Package :=
  {| pkg_name := Some "tools"; pkg_description := Some "Tools.";
     pkg_version := Some "2.0"; pkg_author := Some "acme";
     pkg_files := Some ["sub/a.py"; "__init__.py"];
     pkg_supported := Some ["ballsdex"]; pkg_color := None; pkg_logo := None |}.

Definition full_bot : env :=
  {| ballsdex_present := true; settings_prefix := "b.";
     remote := fun _ => Some {| status_code := 200; content := Some "pass" |};
     yaml := fun _ => Some tools;
     yaml_error := fun _ => YAMLError;
     utf8 := Some;
     color_from_str := fun s => if decide (s = "#03BAFC") then Some 244476 else None;
     host_accepts := fun _ _ => true;
     wall_clock := fun t => Z.of_nat (length t) |}.

End Sample.

(** ** Vocabulary of the statements *)


(** The path segments [install] reads off a link. *)
Definition link_segments (package : string) : list string :=
  Str.split (Str.replace package "https://github.com/" "") "/".

(** A raw reference: a GitHub link that names an owner and a repository. *)
Definition raw_reference (package : string) : Prop :=
  Str.startswith package "https://github.com/" = true ∧
  (2 ≤ length (link_segments package))%nat.

(** How many ["/"] a string has. *)
Fixpoint slashes (s : string) : nat :=
  match s with
  | EmptyString => 0
  | String c s' => ((if Ascii.eqb c "/" then 1 else 0) + slashes s')%nat
  end.

(** A bare name: anything that is not shaped like a GitHub link. *)
Definition bare_name (package : string) : Prop :=
  Str.startswith package "https://github.com/" = false.

(** The contents root of a repository at the API. *)
Definition api_root (owner repo : string) : string :=
  "https://api.github.com/repos/" +:+ owner +:+ "/" +:+ repo +:+ "/contents/".

(** Where [install] stores the manifest of a repository. *)
Definition manifest_path (E : env) (repo : string) : string :=
  dir_type E +:+ "/data/" +:+ repo +:+ ".yml".

(** The directory of a package, a file in it, the address of that file
    at the API, and the name of its module. *)
Definition package_dir (E : env) (name : string) : string :=
  dir_type E +:+ "/packages/" +:+ name.

Definition installed_path (E : env) (name file : string) : string :=
  dir_type E +:+ "/packages/" +:+ name +:+ "/" +:+ file.

Definition file_url (owner repo name file : string) : string :=
  api_root owner repo +:+ name +:+ "/" +:+ file.

Definition module_name (E : env) (name : string) : string :=
  dir_type E +:+ ".packages." +:+ name.

(** A file that downloads: the status is [ok] and the body decodes to
    text. *)
Definition fetched (E : env) (url : string) : option string :=
  match remote E url with
  | Some r =>
      if status_code r =? request_codes_ok
      then match content r with
           | Some c => utf8 E c
           | None => None
           end
      else None
  | None => None
  end.

(** A file that fails to download: the status that is not [ok]. *)
Definition failed_status (E : env) (url : string) : option Z :=
  match remote E url with
  | Some r => if status_code r =? request_codes_ok then None else Some (status_code r)
  | None => None
  end.

(** The reports for the files of a manifest that fail to download, in the
    order of the manifest. *)
Definition failure_reports (E : env) (owner repo name author : string)
    (files : list string) : list message :=
  omap (fun file =>
          match failed_status E (file_url owner repo name file) with
          | Some code => Some (Text (file_failed file author code))
          | None => None
          end) files.

(** The message that announces an installation. *)
Definition announcement (original_name : pyval) (manifest : Package) (c : Z) : Embed :=
  let embed :=
    {| title := "Installing " +:+ fmt original_name;
       description :=
         fmt original_name +:+ " is being installed on your bot." +:+ Str.nl +:+
         "Please do not turn off your bot.";
       color := c; thumbnail := None; footer := None |} in
  match pkg_logo manifest with
  | Some logo => set_thumbnail logo embed
  | None => embed
  end.

(** [open(p, "w")] succeeds. *)
Definition writable (f : gmap string node) (p : string) : Prop :=
  parent_error f p = None ∧ f !! p ≠ Some Dir.

(** The messages among some events. *)
Definition sends (evs : list event) : list message :=
  omap (fun e => match e with EvSend m => Some m | _ => None end) evs.

(** The extensions some events ask to unload. *)
Definition unloads (evs : list event) : list string :=
  omap (fun e => match e with EvUnload n => Some n | _ => None end) evs.

(** The requests among some events. *)
Definition gets (evs : list event) : list string :=
  omap (fun e => match e with EvGet u => Some u | _ => None end) evs.

(** Every atomic step of a command respects [R]. *)
Inductive stepwise (R : world -> world -> Prop) {A : Type} : coro A -> Prop :=
| stepwise_Ret a : stepwise R (Ret a)
| stepwise_Raise e : stepwise R (Raise e)
| stepwise_Sync {X : Type} (op : world -> X * world) (k : X -> coro A) :
    (forall w, R w (op w).2) -> (forall x, stepwise R (k x)) -> stepwise R (Sync op k)
| stepwise_Await k : stepwise R k -> stepwise R (Await k).




(** A plain name: one path segment that is a name (not empty, not [.],
    not [..]), so that the path written with it is the place it names. *)
Definition plain_name (s : string) : Prop :=
  Str.has_slash s = false ∧ s ≠ "" ∧ s ≠ "." ∧ s ≠ "..".

(** A manifest whose name and files are plain names. *)
Definition plain_manifest (m : Package) : Prop :=
  (forall n, pkg_name m = Some n -> plain_name n) ∧
  (forall fl f, pkg_files m = Some fl -> f ∈ fl -> plain_name f).

(** The files are laid out for an install of the flat package [name]
    from the repository [repo]: the two directories of the module are
    there, and no directory sits where the manifest or a file of the
    package goes. *)
Definition installable (E : env) (repo name : string) (files : list string)
    (w : world) : Prop :=
  fs w !! (dir_type E +:+ "/data") = Some Dir ∧
  fs w !! (dir_type E +:+ "/packages") = Some Dir ∧
  fs w !! manifest_path E repo ≠ Some Dir ∧
  is_file (fs w) (package_dir E name) = false ∧
  (forall f, f ∈ files -> fs w !! installed_path E name f ≠ Some Dir).

(** The registry is what it was. *)
Definition same_registry (w w' : world) : Prop :=
  verified_packages w' = verified_packages w.

(** The path [k] holds what it held. *)
Definition keeps_path (k : string) (w w' : world) : Prop :=
  fs w' !! k = fs w !! k.

(** Nothing but the events has changed. *)
Definition only_events (w w' : world) : Prop :=
  verified w' = verified w ∧ verified_packages w' = verified_packages w ∧
  fs w' = fs w ∧ extensions w' = extensions w.

(** Nothing is installed: every file is one that was there, with what it
    held, and every loaded extension is one that was loaded. *)
Definition nothing_installed (w w' : world) : Prop :=
  fs w' ⊆ fs w ∧ extensions w' ⊆ extensions w.

(** The address of the installer that [update_dp] asks for. *)
Definition installer_url : string :=
  "https://api.github.com/repos/Dotsian/DexPack/contents/installer.py".

(** The events only grow, and every request that is added is the one
    for the installer. *)
Definition requests_installer_only (w w' : world) : Prop :=
  exists evs, trace w' = trace w ++ evs ∧ Forall (fun url => url = installer_url) (gets evs).

(** The confirmation is not set, and the events only grow. *)
Definition keeps_unconfirmed (w w' : world) : Prop :=
  (verified w = false -> verified w' = false) ∧ trace w `prefix_of` trace w'.

(** The events a command added to those of [w]. *)
Definition added (w w' : world) : list event := drop (length (trace w)) (trace w').

Example split_owner_repo :
  Str.split (Str.replace "https://github.com/acme/widgets" "https://github.com/" "") "/"
  = ["acme"; "widgets"].
Proof. reflexivity. Qed.

Example split_registry_line : Str.split "dexscript : Dotsian/DexScript" " : " = ["dexscript"; "Dotsian/DexScript"].
Proof. reflexivity. Qed.

Example title_words : Str.title "my-paCK v2" = "My-Pack V2".
Proof. reflexivity. Qed.

Example dirname_nested : Str.dirname "ballsdex/packages/widgets/cog.py" = "ballsdex/packages/widgets".
Proof. reflexivity. Qed.

(** ** Running a command *)

Lemma run_bind {A B : Type} (c : coro A) (f : A -> coro B) (w : world) :
  run (bind c f) w =
  match run c w with
  | (Returned a, w') => run (f a) w'
  | (Raised e, w') => (Raised e, w')
  end.
Proof.
  revert w. induction c as [a|e|X op k IH|k IH]; intros w; simpl; auto.
  destruct (op w) as [x w']. apply IH.
Qed.

Lemma run_try_except {A : Type} (c : coro A) (h : exn -> option (coro A)) (w : world) :
  run (try_except c h) w =
  match run c w with
  | (Returned a, w') => (Returned a, w')
  | (Raised e, w') =>
      match h e with
      | Some c' => run c' w'
      | None => (Raised e, w')
      end
  end.
Proof.
  revert w. induction c as [a|e|X op k IH|k IH]; intros w; simpl; auto.
  - destruct (h e); auto.
  - destruct (op w) as [x w']. apply IH.
Qed.

(** ** The registry lookup of [install] *)

Lemma found_package_lookup (m : gmap string string) (package : string) :
  filter (fun x : string * string => x.1 = package) (map_to_list m) =
  match m !! package with
  | Some url => [(package, url)]
  | None => []
  end.
Proof.
  induction m as [|k v m Hk Hfirst IH] using map_first_key_ind.
  - by rewrite map_to_list_empty, lookup_empty.
  - rewrite map_to_list_insert_first_key by done.
    rewrite filter_cons. simpl. case_decide as Hd.
    + subst k. rewrite lookup_insert_eq. rewrite IH, Hk. done.
    + rewrite lookup_insert_ne by done. apply IH.
Qed.

(** ** The reference and the trust gate *)

(** C10. A bare name that the registry does not hold: [install] answers
    that the link is not valid and returns.  Its only effect is that
    message: nothing is requested, no file is written, and the
    confirmation keeps its value. *)
Theorem install_unknown_bare_name (E : env) (w : world) (package : string) :
  bare_name package ->
  verified_packages w !! package = None ->
  run (install E package) w =
    (Returned tt, log (EvSend (Text "The link you sent is not a valid GitHub link.")) w).
Proof.
  intros Hb Hr. unfold install. rewrite Hb. simpl.
  rewrite found_package_lookup, Hr. reflexivity.
Qed.

Lemma raw_reference_segments (package : string) :
  raw_reference package ->
  exists owner repo rest, link_segments package = owner :: repo :: rest.
Proof.
  intros [_ Hlen]. destruct (link_segments package) as [|owner [|repo rest]]; simpl in Hlen; try lia.
  eauto.
Qed.

Lemma install_raw (E : env) (package : string) :
  Str.startswith package "https://github.com/" = true ->
  install E package = install_gate E false (PStr <$> link_segments package).
Proof. intros Hs. unfold install. by rewrite Hs. Qed.

(** The gate is never passed: the second item is missing, or the test of
    the gate raises at [script_settings]. *)
Lemma install_gate_raises (E : env) (is_verified : bool) (package_info : list pyval) :
  install_gate E is_verified package_info =
    Raise (match package_info !! 1%nat with
           | Some _ => NameError "script_settings"
           | None => IndexError
           end).
Proof. unfold install_gate, index. by destruct (package_info !! 1%nat). Qed.

Lemma install_link_raises (E : env) (w : world) (package : string) :
  raw_reference package ->
  run (install E package) w = (Raised (NameError "script_settings"), w).
Proof.
  intros Hraw. destruct (raw_reference_segments _ Hraw) as (owner & repo & rest & Hseg).
  rewrite install_raw by apply Hraw. by rewrite install_gate_raises, Hseg.
Qed.

(** C1. A raw reference, no confirmation pending: the test of the gate
    reads [script_settings], which nothing binds, and [install] ends
    there with [NameError].  The caution is not sent; nothing is sent or
    requested at all, and the confirmation keeps its value. *)
Theorem install_unconfirmed_raw_raises (E : env) (w : world) (package : string) :
  raw_reference package ->
  verified w = false ->
  run (install E package) w = (Raised (NameError "script_settings"), w).
Proof. intros Hraw _. by apply install_link_raises. Qed.

Lemma install_unconfirmed_raw_raises_witness :
  raw_reference "https://github.com/acme/widgets" ∧
  verified Sample.fresh = false ∧
  run (install Sample.bot "https://github.com/acme/widgets") Sample.fresh =
    (Raised (NameError "script_settings"), Sample.fresh).
Proof.
  assert (Hraw : raw_reference "https://github.com/acme/widgets").
  { split; [reflexivity | vm_compute; lia]. }
  split; [exact Hraw |]. split; [reflexivity |].
  exact (install_unconfirmed_raw_raises Sample.bot Sample.fresh _ Hraw eq_refl).
Defined.

Lemma install_unknown_bare_name_witness :
  bare_name "acme/widgets" ∧
  verified_packages Sample.fresh !! "acme/widgets" = None ∧
  run (install Sample.bot "acme/widgets") (with_verified true Sample.fresh) =
    (Returned tt,
     log (EvSend (Text "The link you sent is not a valid GitHub link."))
       (with_verified true Sample.fresh)).
Proof.
  split; [reflexivity |]. split; [reflexivity |].
  apply (install_unknown_bare_name Sample.bot (with_verified true Sample.fresh) "acme/widgets");
    reflexivity.
Defined.

(** C4. A bare name that the registry holds: [found_package] has one item,
    [package_info] is the list of that one item, and [package_info[1]]
    raises [IndexError] before the gate.  Nothing is sent and nothing is
    requested. *)
Theorem install_registered_name_raises (E : env) (w : world) (package url : string) :
  bare_name package ->
  verified_packages w !! package = Some url ->
  run (install E package) w = (Raised IndexError, w).
Proof.
  intros Hb Hr. unfold install. rewrite Hb. simpl.
  rewrite found_package_lookup, Hr. reflexivity.
Qed.

Lemma install_registered_name_raises_witness :
  bare_name "widgets" ∧
  verified_packages Sample.registered !! "widgets" = Some "https://github.com/acme/widgets" ∧
  run (install Sample.bot "widgets") Sample.registered = (Raised IndexError, Sample.registered).
Proof.
  split; [reflexivity |]. split; [reflexivity |].
  apply (install_registered_name_raises Sample.bot Sample.registered "widgets"
           "https://github.com/acme/widgets"); reflexivity.
Defined.

(** ** The registry build *)

(** C5. Whatever the remote answers, [verify_packages] raises [NameError]
    on [r] right after the request: no warning is logged, and the
    registry stays as it was. *)
Theorem verify_packages_raises (E : env) (w : world) (answer : response) :
  remote E "https://api.github.com/repos/Dotsian/DexPack/contents/verified.txt" = Some answer ->
  run (verify_packages E) w =
    (Raised (NameError "r"),
     log (EvGet "https://api.github.com/repos/Dotsian/DexPack/contents/verified.txt") w).
Proof.
  intros Hr. unfold verify_packages. simpl. rewrite Hr. reflexivity.
Qed.

Lemma verify_packages_raises_witness :
  remote Sample.bot "https://api.github.com/repos/Dotsian/DexPack/contents/verified.txt"
    = Some {| status_code := 404; content := None |} ∧
  run (verify_packages Sample.bot) Sample.fresh =
    (Raised (NameError "r"),
     log (EvGet "https://api.github.com/repos/Dotsian/DexPack/contents/verified.txt") Sample.fresh).
Proof.
  split; [reflexivity |].
  apply (verify_packages_raises Sample.bot Sample.fresh {| status_code := 404; content := None |}).
  reflexivity.
Defined.

(** ** Uninstall *)

(** C8. A package whose directory does not exist: [rmtree] raises
    [FileNotFoundError] and [uninstall] passes it on.  Nothing is sent,
    and the process state is untouched. *)
Theorem uninstall_missing_raises (E : env) (w : world) (package : string) :
  fs w !! (dir_type E +:+ "/packages/" +:+ package) = None ->
  run (uninstall E package) w =
    (Raised (FileNotFoundError (dir_type E +:+ "/packages/" +:+ package)), w).
Proof.
  intros Hd. unfold uninstall. simpl. rewrite Hd. reflexivity.
Qed.

Lemma uninstall_missing_raises_witness :
  fs Sample.fresh !! (dir_type Sample.bot +:+ "/packages/" +:+ "widgets") = None ∧
  run (uninstall Sample.bot "widgets") Sample.fresh =
    (Raised (FileNotFoundError "ballsdex/packages/widgets"), Sample.fresh).
Proof.
  split; [reflexivity |].
  apply (uninstall_missing_raises Sample.bot Sample.fresh "widgets"). reflexivity.
Defined.

Lemma module_names_differ (E : env) (package : string) :
  dir_type E +:+ "/packages/" +:+ package ≠ dir_type E +:+ ".packages." +:+ package.
Proof. unfold dir_type. destruct (ballsdex_present E); simpl; intros H; injection H as H; discriminate H. Qed.

Lemma under_refl (p : string) : under p p = true.
Proof. unfold under. by rewrite bool_decide_eq_true_2. Qed.

(** C9. An installed package: its directory is there and the bot holds
    its module under the dotted name [install] gave to [load_extension].
    [uninstall] removes the directory, and the one unload it asks for
    names the slash-separated path, which is another name: the module
    of the package is still loaded afterwards. *)
Theorem uninstall_unloads_another_name (E : env) (w : world) (package : string) :
  fs w !! (dir_type E +:+ "/packages/" +:+ package) = Some Dir ->
  dir_type E +:+ ".packages." +:+ package ∈ extensions w ->
  exists evs,
    trace (run (uninstall E package) w).2 = trace w ++ evs ∧
    unloads evs = [dir_type E +:+ "/packages/" +:+ package] ∧
    dir_type E +:+ "/packages/" +:+ package ≠ dir_type E +:+ ".packages." +:+ package ∧
    fs (run (uninstall E package) w).2 !! (dir_type E +:+ "/packages/" +:+ package) = None ∧
    dir_type E +:+ ".packages." +:+ package ∈ extensions (run (uninstall E package) w).2.
Proof.
  intros Hd Hx. pose proof (module_names_differ E package) as Hne.
  unfold uninstall. simpl. rewrite Hd. simpl.
  destruct (decide (dir_type E +:+ "/packages/" +:+ package ∈ extensions w)) as [Hin|Hout]; simpl.
  - eexists [_; _; _]. rewrite <- !app_assoc. simpl.
    split; [reflexivity |]. split; [reflexivity |]. split; [exact Hne |]. split.
    + apply map_lookup_filter_None. right. intros x _. simpl. by rewrite under_refl.
    + set_solver.
  - eexists [_]. split; [reflexivity |]. split; [reflexivity |]. split; [exact Hne |]. split.
    + apply map_lookup_filter_None. right. intros x _. simpl. by rewrite under_refl.
    + exact Hx.
Qed.

Lemma uninstall_unloads_another_name_witness :
  fs Sample.installed !! (dir_type Sample.bot +:+ "/packages/" +:+ "widgets") = Some Dir ∧
  dir_type Sample.bot +:+ ".packages." +:+ "widgets" ∈ extensions Sample.installed ∧
  exists evs,
    trace (run (uninstall Sample.bot "widgets") Sample.installed).2 = trace Sample.installed ++ evs ∧
    unloads evs = ["ballsdex/packages/widgets"] ∧
    "ballsdex/packages/widgets" ≠ "ballsdex.packages.widgets" ∧
    fs (run (uninstall Sample.bot "widgets") Sample.installed).2 !! "ballsdex/packages/widgets" = None ∧
    "ballsdex.packages.widgets" ∈ extensions (run (uninstall Sample.bot "widgets") Sample.installed).2.
Proof.
  assert (Hd : fs Sample.installed !! (dir_type Sample.bot +:+ "/packages/" +:+ "widgets") = Some Dir)
    by reflexivity.
  assert (Hx : dir_type Sample.bot +:+ ".packages." +:+ "widgets" ∈ extensions Sample.installed).
  { vm_compute. reflexivity. }
  split; [exact Hd |]. split; [exact Hx |].
  exact (uninstall_unloads_another_name Sample.bot Sample.installed "widgets" Hd Hx).
Defined.

(** ** The manifest and the platform check *)



Lemma install_manifest_stored (E : env) (w : world) (original_name : pyval)
    (owner repo : string) (rest : list pyval) (answer : response) (c text : string)
    (manifest : Package) :
  remote E (api_root owner repo +:+ "package.yml") = Some answer ->
  status_code answer = request_codes_ok ->
  content answer = Some c ->
  writable (fs w) (manifest_path E repo) ->
  utf8 E c = Some text ->
  yaml E c = Some manifest ->
  run (install_manifest E original_name (PStr owner :: PStr repo :: rest)) w =
    run (install_platform E original_name (api_root owner repo) manifest (wall_clock E (trace w)))
      (with_fs (<[manifest_path E repo := File text]> (fs w))
         (log (EvGet (api_root owner repo +:+ "package.yml")) w)).
Proof.
  intros Hrem Hst Hc [Hpar Hnd] Hutf Hy.
  unfold api_root, manifest_path in *.
  unfold install_manifest. cbn -[String.append].
  rewrite Hrem. cbn -[String.append]. rewrite Hst. cbn -[String.append].
  unfold b64decode_content. rewrite Hc. cbn -[String.append].
  rewrite Hpar.
  destruct (fs w !! (dir_type E +:+ "/data/" +:+ repo +:+ ".yml")) as [[|data]|] eqn:Hl;
    [done | |]; cbn -[String.append];
    unfold decode, yaml_load; rewrite Hutf; cbn -[String.append]; rewrite Hy;
    cbn -[String.append]; unfold with_fs, log; cbn -[String.append];
    by rewrite insert_insert_eq.
Qed.






(** ** Steps that never set the confirmation *)

Section Stepwise.

Context (R : world -> world -> Prop) `{!Reflexive R, !Transitive R}.

Lemma stepwise_bind {A B : Type} (c : coro A) (f : A -> coro B) :
  stepwise R c -> (forall a, stepwise R (f a)) -> stepwise R (bind c f).
Proof. induction 1; intros Hf; simpl; try constructor; auto. Qed.

Lemma stepwise_try_except {A : Type} (c : coro A) (h : exn -> option (coro A)) :
  stepwise R c -> (forall e c', h e = Some c' -> stepwise R c') -> stepwise R (try_except c h).
Proof.
  induction 1 as [a|e|X op k Hop Hk IH|k Hk IH]; intros Hh; simpl; try constructor; auto.
  destruct (h e) as [c'|] eqn:He; [eauto | constructor].
Qed.

Lemma stepwise_for_each {X : Type} (l : list X) (body : X -> coro unit) :
  (forall x, stepwise R (body x)) -> stepwise R (for_each l body).
Proof.
  intros Hb. induction l as [|x l IH]; simpl; [constructor |].
  apply stepwise_bind; auto.
Qed.

Lemma stepwise_lift {A : Type} (r : outcome A) : stepwise R (lift r).
Proof. destruct r; constructor. Qed.

Lemma stepwise_prim {A : Type} (op : world -> outcome A * world) :
  (forall w, R w (op w).2) -> stepwise R (prim op).
Proof. intros Hop. constructor; [done | apply stepwise_lift]. Qed.

Lemma stepwise_await {A : Type} (c : coro A) : stepwise R c -> stepwise R (await c).
Proof. intros Hc. apply stepwise_bind; [done |]. intros a. repeat constructor. Qed.

Lemma stepwise_index {A : Type} (l : list A) (i : nat) : stepwise R (index l i).
Proof. unfold index. destruct (l !! i); constructor. Qed.

Lemma stepwise_attribute {A : Type} (attr : string) (o : option A) : stepwise R (attribute attr o).
Proof. destruct o; constructor. Qed.

(** A whole run respects what each step respects. *)
Lemma stepwise_run {A : Type} (c : coro A) (w : world) : stepwise R c -> R w (run c w).2.
Proof.
  intros Hc. revert w. induction Hc as [a|e|X op k Hop Hk IH|k Hk IH]; intros w; simpl; auto.
  specialize (Hop w). destruct (op w) as [x w']. simpl in Hop.
  etransitivity; [exact Hop | apply IH].
Qed.

End Stepwise.

#[local] Instance keeps_unconfirmed_refl : Reflexive keeps_unconfirmed.
Proof. intros w. split; [done | reflexivity]. Qed.

#[local] Instance keeps_unconfirmed_trans : Transitive keeps_unconfirmed.
Proof.
  intros w1 w2 w3 [Hv1 Ht1] [Hv2 Ht2]. split; [auto | by etransitivity].
Qed.

Lemma keeps_unconfirmed_log (e : event) (w : world) : keeps_unconfirmed w (log e w).
Proof. split; [done | by apply prefix_app_r]. Qed.

Lemma keeps_unconfirmed_fs (f : gmap string node) (w : world) :
  keeps_unconfirmed w (with_fs f w).
Proof. split; [done | reflexivity]. Qed.

Lemma keeps_unconfirmed_extensions (x : gset string) (w : world) :
  keeps_unconfirmed w (with_extensions x w).
Proof. split; [done | reflexivity]. Qed.

Lemma keeps_unconfirmed_unset (w : world) : keeps_unconfirmed w (with_verified false w).
Proof. split; [done | reflexivity]. Qed.

Ltac stepwise_prims :=
  repeat first
    [ apply keeps_unconfirmed_refl
    | apply keeps_unconfirmed_unset
    | apply keeps_unconfirmed_log
    | apply keeps_unconfirmed_fs
    | apply keeps_unconfirmed_extensions
    | match goal with
      | |- keeps_unconfirmed _ (with_extensions _ (log _ _)) =>
          etransitivity; [apply keeps_unconfirmed_log | apply keeps_unconfirmed_extensions]
      | |- context [match ?x with _ => _ end] => destruct x; simpl
      end ].

Ltac stepwise_go :=
  repeat first
    [ apply stepwise_Ret
    | apply stepwise_Raise
    | apply stepwise_Await
    | apply stepwise_index
    | apply stepwise_attribute
    | apply stepwise_lift
    | apply stepwise_await; [typeclasses eauto .. |]
    | apply stepwise_bind; [typeclasses eauto .. | | intros ?]
    | apply stepwise_for_each; [typeclasses eauto .. | intros ?]
    | apply stepwise_try_except;
        [typeclasses eauto ..
        |
        | let e := fresh "e" in
          let He := fresh "He" in
          intros e ? He; destruct e; try discriminate He; injection He as <- ]
    | apply stepwise_prim; intros ?; simpl; solve [stepwise_prims]
    | apply stepwise_Sync; [intros ?; simpl; solve [stepwise_prims] | intros ?]
    | match goal with
      | |- stepwise _ (if ?b then _ else _) => destruct b
      | |- stepwise _ (match ?x with _ => _ end) => destruct x
      end
    | progress unfold mbind, coro_bind
    | progress unfold decode, yaml_load, b64decode_content, Color_from_str, unbound,
        no_attribute ].

Section Unconfirmed.

Variable E : env.

Let R := keeps_unconfirmed.

Lemma stepwise_ctx_send (m : message) : stepwise R (ctx_send m).
Proof. unfold ctx_send, emit. stepwise_go. Qed.








Lemma stepwise_install_gate (is_verified : bool) (package_info : list pyval) :
  stepwise R (install_gate E is_verified package_info).
Proof. rewrite install_gate_raises. constructor. Qed.

Lemma stepwise_install (package : string) : stepwise R (install E package).
Proof.
  unfold install, get_verified_packages.
  stepwise_go; first [apply stepwise_ctx_send | apply stepwise_install_gate].
Qed.

End Unconfirmed.

(** ** The confirmation is used once *)





(** ** Concurrent installs *)






(** The two sample installs under one schedule: both end at the gate,
    nothing is requested, and the confirmation is still set. *)
Example concurrent_installs_run :
  event_loop [0; 1; 1; 0]%nat
    [Running (install Sample.bot "https://github.com/acme/widgets");
     Running (install Sample.bot "https://github.com/acme/gadgets")]
    (with_verified true Sample.fresh) [] =
    ([Finished (Raised (NameError "script_settings"));
      Finished (Raised (NameError "script_settings"))],
     with_verified true Sample.fresh, []).
Proof. reflexivity. Qed.

(** ** Paths *)

Lemma append_cons (c : ascii) (a b : string) : String c a +:+ b = String c (a +:+ b).
Proof. reflexivity. Qed.

Lemma append_assoc (a b c : string) : (a +:+ b) +:+ c = a +:+ b +:+ c.
Proof. induction a as [|x a IH]; [done |]. rewrite !append_cons. by f_equal. Qed.

Lemma append_length (a b : string) :
  String.length (a +:+ b) = (String.length a + String.length b)%nat.
Proof. induction a as [|c a IH]; [done |]. rewrite append_cons. simpl. by f_equal. Qed.

Lemma has_slash_join (a b : string) : Str.has_slash (a +:+ "/" +:+ b) = true.
Proof.
  induction a as [|c a IH]; [done |]. rewrite append_cons. simpl.
  by destruct (Ascii.eqb c "/").
Qed.

Lemma dirname_join (a b : string) :
  Str.has_slash b = false -> Str.dirname (a +:+ "/" +:+ b) = a.
Proof.
  intros Hb. induction a as [|c a IH].
  - change (Str.dirname (String "/" b) = ""). simpl. by rewrite Hb.
  - rewrite append_cons. simpl. by rewrite has_slash_join, IH.
Qed.

Lemma manifest_path_not_packages (E : env) (repo s : string) :
  manifest_path E repo ≠ dir_type E +:+ "/packages" +:+ s.
Proof.
  unfold manifest_path. intros H. apply (inj _) in H. discriminate H.
Qed.

Lemma installed_path_inj (E : env) (name f g : string) :
  installed_path E name f = installed_path E name g -> f = g.
Proof.
  unfold installed_path. intros H. by repeat apply (inj _) in H.
Qed.

Lemma installed_path_not_dir (E : env) (name f : string) :
  installed_path E name f ≠ package_dir E name.
Proof.
  unfold installed_path, package_dir. intros H. repeat apply (inj _) in H.
  apply (f_equal String.length) in H. rewrite append_length in H. simpl in H. lia.
Qed.

Lemma installed_path_dirname (E : env) (name f : string) :
  Str.has_slash f = false -> Str.dirname (installed_path E name f) = package_dir E name.
Proof.
  intros Hf. unfold installed_path, package_dir.
  transitivity (Str.dirname ((dir_type E +:+ "/packages/" +:+ name) +:+ "/" +:+ f));
    [by rewrite !append_assoc | by apply dirname_join].
Qed.

Lemma package_dir_dirname (E : env) (name : string) :
  Str.has_slash name = false -> Str.dirname (package_dir E name) = dir_type E +:+ "/packages".
Proof.
  intros Hn. unfold package_dir.
  transitivity (Str.dirname ((dir_type E +:+ "/packages") +:+ "/" +:+ name));
    [by rewrite !append_assoc | by apply dirname_join].
Qed.

Lemma is_dir_lookup (f : gmap string node) (p : string) :
  f !! p = Some Dir -> is_dir f p = true.
Proof. intros H. unfold is_dir. rewrite H. by case_decide. Qed.

(** ** The files of a package *)

Section Files.

Variable E : env.
Variables (owner repo name author : string) (manifest : Package).
Hypothesis manifest_name : pkg_name manifest = Some name.
Hypothesis manifest_author : pkg_author manifest = Some author.

(** A file that fails to download is reported, and that is all. *)
Lemma install_file_failed (file : string) (code : Z) (w : world) :
  failed_status E (file_url owner repo name file) = Some code ->
  run (install_file E (api_root owner repo) manifest file) w =
    (Returned tt,
     log (EvSend (Text (file_failed file author code)))
       (log (EvGet (file_url owner repo name file)) w)).
Proof.
  unfold failed_status, file_url, install_file. intros Hf.
  rewrite manifest_name, manifest_author. cbn -[String.append].
  destruct (remote E _) as [r|]; [| done]. cbn -[String.append].
  destruct (status_code r =? request_codes_ok); [done |]. by injection Hf as <-.
Qed.

(** A file that downloads is written into the directory of the package. *)
Lemma install_file_fetched (file text : string) (w : world) :
  fetched E (file_url owner repo name file) = Some text ->
  Str.has_slash file = false ->
  fs w !! package_dir E name = Some Dir ->
  fs w !! installed_path E name file ≠ Some Dir ->
  run (install_file E (api_root owner repo) manifest file) w =
    (Returned tt,
     with_fs (<[installed_path E name file := File text]> (fs w))
       (log (EvGet (file_url owner repo name file)) w)).
Proof.
  unfold fetched, file_url, install_file. intros Hf Hflat Hdir Hnd.
  rewrite manifest_name. cbn -[String.append].
  destruct (remote E _) as [r|]; [| done]. cbn -[String.append].
  destruct (status_code r =? request_codes_ok); [| done].
  unfold b64decode_content. destruct (content r) as [c|]; [| done]. cbn -[String.append].
  fold (installed_path E name file).
  unfold parent_error. rewrite (installed_path_dirname E name file Hflat).
  rewrite (is_dir_lookup _ _ Hdir).
  unfold decode. rewrite Hf.
  destruct (fs w !! installed_path E name file) as [[|data]|] eqn:Hl; [done | |];
    cbn -[String.append]; unfold with_fs, log; cbn -[String.append];
    by rewrite insert_insert_eq.
Qed.

Lemma sends_app (evs1 evs2 : list event) : sends (evs1 ++ evs2) = sends evs1 ++ sends evs2.
Proof. apply omap_app. Qed.

Lemma failure_reports_cons (f : string) (files : list string) :
  failure_reports E owner repo name author (f :: files) =
  match failed_status E (file_url owner repo name f) with
  | Some code => Text (file_failed f author code) :: failure_reports E owner repo name author files
  | None => failure_reports E owner repo name author files
  end.
Proof. unfold failure_reports. simpl. by destruct (failed_status E _). Qed.


(** The loop over the files: every file that fails is reported, every
    file that downloads is on disk afterwards, and nothing stops the
    loop. *)
Lemma install_files_loop (files : list string) :
  forall w : world,
    fs w !! package_dir E name = Some Dir ->
    (forall f, f ∈ files ->
       Str.has_slash f = false ∧
       fs w !! installed_path E name f ≠ Some Dir ∧
       (is_Some (failed_status E (file_url owner repo name f)) ∨
        is_Some (fetched E (file_url owner repo name f)))) ->
    exists w' evs,
      run (for_each files (install_file E (api_root owner repo) manifest)) w = (Returned tt, w') ∧
      trace w' = trace w ++ evs ∧
      sends evs = failure_reports E owner repo name author files ∧
      extensions w' = extensions w ∧
      fs w' !! package_dir E name = Some Dir ∧
      (forall f text, f ∈ files -> fetched E (file_url owner repo name f) = Some text ->
         fs w' !! installed_path E name f = Some (File text)) ∧
      (forall k, (forall f, f ∈ files -> k ≠ installed_path E name f) -> fs w' !! k = fs w !! k).
Proof.
  induction files as [|f files IH]; intros w Hdir Hfiles.
  - exists w, []. simpl. rewrite app_nil_r.
    repeat (split; [done |]). split; [| done]. intros f text Hin. by apply elem_of_nil in Hin.
  - destruct (Hfiles f) as (Hflat & Hnd & Hcase); [by left |].
    assert (Hrest : forall g, g ∈ files -> f ≠ g ->
              installed_path E name f ≠ installed_path E name g).
    { intros g _ Hne Heq. by apply Hne, (installed_path_inj E name). }
    cbn [for_each]. unfold mbind, coro_bind. rewrite run_bind.
    destruct (failed_status E (file_url owner repo name f)) as [code|] eqn:Hfail.
    + rewrite (install_file_failed f code w Hfail).
      destruct (IH (log (EvSend (Text (file_failed f author code)))
                      (log (EvGet (file_url owner repo name f)) w)))
        as (w' & evs & Hrun & Htr & Hs & Hx & Hd & Hon & Hframe); [done | |].
      { intros g Hg. apply Hfiles. by right. }
      exists w', ([EvGet (file_url owner repo name f); EvSend (Text (file_failed f author code))] ++ evs).
      split; [exact Hrun |]. split; [rewrite Htr; simpl; by rewrite <- !app_assoc |].
      split; [by rewrite sends_app, Hs, failure_reports_cons, Hfail |].
      split; [done |]. split; [done |]. split.
      * intros g text Hg Hfetch. apply elem_of_cons in Hg as [->|Hg]; [| by eapply Hon].
        unfold failed_status, fetched in Hfail, Hfetch.
        destruct (remote E _); [| done]. by destruct (status_code _ =? _).
      * intros k Hk. rewrite Hframe; [done |]. intros g Hg. apply Hk. by right.
    + destruct Hcase as [[code Hc]|[text Hfetch]]; [congruence |].
      rewrite (install_file_fetched f text w Hfetch Hflat Hdir Hnd).
      destruct (IH (with_fs (<[installed_path E name f := File text]> (fs w))
                      (log (EvGet (file_url owner repo name f)) w)))
        as (w' & evs & Hrun & Htr & Hs & Hx & Hd & Hon & Hframe).
      { simpl. rewrite lookup_insert_ne; [done | apply installed_path_not_dir]. }
      { intros g Hg. destruct (Hfiles g) as (Hgf & Hgn & Hgc); [by right |].
        split; [done |]. split; [| done]. simpl.
        destruct (decide (installed_path E name f = installed_path E name g)) as [Heq|Hne].
        - rewrite Heq, lookup_insert_eq. done.
        - by rewrite lookup_insert_ne. }
      exists w', ([EvGet (file_url owner repo name f)] ++ evs).
      split; [exact Hrun |]. split; [rewrite Htr; simpl; by rewrite <- !app_assoc |].
      split; [by rewrite sends_app, Hs, failure_reports_cons, Hfail |].
      split; [done |]. split; [done |]. split.
      * intros g text' Hg Hfetch'. apply elem_of_cons in Hg as [->|Hg]; [| by eapply Hon].
        assert (text' = text) as -> by congruence.
        destruct (decide (f ∈ files)) as [Hin|Hout]; [by eapply Hon |].
        rewrite Hframe; [simpl; by rewrite lookup_insert_eq |].
        intros g Hg. apply Hrest; [done |]. by intros ->.
      * intros k Hk. rewrite Hframe; [| intros g Hg; apply Hk; by right].
        simpl. rewrite lookup_insert_ne; [done |]. intros Heq. by apply (Hk f); [left |].
Qed.

(** The end of [install]: the extension is asked for, whatever came
    before; nothing more is sent and no file is touched. *)
Lemma install_activate_run (original_name : pyval) (embed : Embed) (t1 : Z) (w : world) :
  exists evs,
    trace (run (install_activate E original_name manifest embed t1) w).2 =
      trace w ++ EvLoad (module_name E name) :: evs ∧
    sends evs = [] ∧
    fs (run (install_activate E original_name manifest embed t1) w).2 = fs w ∧
    (host_accepts E (fs w) (module_name E name) = true ->
     is_Some (pkg_description manifest) ->
     (run (install_activate E original_name manifest embed t1) w).1 = Returned tt).
Proof.
  unfold install_activate, module_name. rewrite manifest_name. cbn -[String.append].
  destruct (decide (dir_type E +:+ ".packages." +:+ name ∈ extensions w)) as [Hin|Hout];
    cbn -[String.append].
  - rewrite decide_True by done.
    destruct (host_accepts E (fs w) _); cbn -[String.append].
    + destruct (pkg_description manifest) as [d|]; cbn -[String.append].
      * eexists [_; _]. rewrite <- !app_assoc. repeat (split; [done |]). done.
      * eexists [_]. rewrite <- !app_assoc. repeat (split; [done |]).
        intros _ [d Hd]. discriminate Hd.
    + eexists [_]. rewrite <- !app_assoc. repeat (split; [done |]). done.
  - destruct (host_accepts E (fs w) _); cbn -[String.append].
    + destruct (pkg_description manifest) as [d|]; cbn -[String.append].
      * eexists [_]. rewrite <- !app_assoc. repeat (split; [done |]). done.
      * exists []. repeat (split; [done |]). intros _ [d Hd]. discriminate Hd.
    + exists []. repeat (split; [done |]). done.
Qed.

(** From [mkdir] to the end. *)
Lemma install_files_run (original_name : pyval) (embed : Embed) (t1 : Z)
    (files : list string) (w : world) :
  pkg_files manifest = Some files ->
  fs w !! (dir_type E +:+ "/packages") = Some Dir ->
  Str.has_slash name = false ->
  is_file (fs w) (package_dir E name) = false ->
  (forall f, f ∈ files ->
     Str.has_slash f = false ∧
     fs w !! installed_path E name f ≠ Some Dir ∧
     (is_Some (failed_status E (file_url owner repo name f)) ∨
      is_Some (fetched E (file_url owner repo name f)))) ->
  exists evs,
    trace (run (install_files E original_name (api_root owner repo) manifest embed t1) w).2 =
      trace w ++ evs ∧
    sends evs = failure_reports E owner repo name author files ∧
    EvLoad (module_name E name) ∈ evs ∧
    (forall f text, f ∈ files -> fetched E (file_url owner repo name f) = Some text ->
       fs (run (install_files E original_name (api_root owner repo) manifest embed t1) w).2
         !! installed_path E name f = Some (File text)) ∧
    (host_accepts E
       (fs (run (install_files E original_name (api_root owner repo) manifest embed t1) w).2)
       (module_name E name) = true ->
     is_Some (pkg_description manifest) ->
     (run (install_files E original_name (api_root owner repo) manifest embed t1) w).1
       = Returned tt).
Proof.
  intros Hfiles Hpk Hflat Hnf Hall.
  assert (Hmk : exists w1,
            run (try_except
                   (name ← attribute "name" (pkg_name manifest);
                    mkdir (dir_type E +:+ "/packages/" +:+ name))
                   (fun e => match e with FileExistsError _ => Some (Ret tt) | _ => None end)) w
              = (Returned tt, w1) ∧
            trace w1 = trace w ∧
            fs w1 !! package_dir E name = Some Dir ∧
            (forall k, k ≠ package_dir E name -> fs w1 !! k = fs w !! k)).
  { rewrite manifest_name. cbn -[String.append]. fold (package_dir E name).
    unfold parent_error. rewrite (package_dir_dirname E name Hflat), (is_dir_lookup _ _ Hpk).
    unfold is_file in Hnf.
    destruct (fs w !! package_dir E name) as [[|data]|] eqn:Hl; [| done |]; cbn -[String.append].
    - exists w. by repeat split.
    - eexists. split; [reflexivity |]. split; [done |]. simpl.
      split; [by rewrite lookup_insert_eq |]. intros k Hk. by rewrite lookup_insert_ne. }
  destruct Hmk as (w1 & Hrun1 & Htr1 & Hdir1 & Hframe1).
  destruct (install_files_loop files w1 Hdir1) as (w2 & evs & Hrun2 & Htr2 & Hs & _ & _ & Hon & _).
  { intros f Hf. destruct (Hall f Hf) as (Hff & Hfn & Hfc). split; [done |]. split; [| done].
    rewrite Hframe1; [done | apply installed_path_not_dir]. }
  destruct (install_activate_run original_name embed t1 w2) as (evs' & Htr3 & Hs' & Hfs3 & Hret).
  assert (Hrun : run (install_files E original_name (api_root owner repo) manifest embed t1) w =
                 run (install_activate E original_name manifest embed t1) w2).
  { unfold install_files, mbind, coro_bind. rewrite run_bind.
    unfold mbind, coro_bind in Hrun1. rewrite Hrun1, Hfiles. cbn [attribute bind].
    by rewrite run_bind, Hrun2. }
  rewrite Hrun. exists (evs ++ EvLoad (module_name E name) :: evs').
  split; [by rewrite Htr3, Htr2, Htr1, <- app_assoc |].
  split; [rewrite sends_app, Hs; simpl; rewrite Hs'; by rewrite app_nil_r |].
  split; [apply elem_of_app; right; by left |].
  split; [intros f text Hf Hfetch; rewrite Hfs3; by eapply Hon |].
  rewrite Hfs3. exact Hret.
Qed.

End Files.

Lemma manifest_path_not_packages_dir (E : env) (repo : string) :
  manifest_path E repo ≠ dir_type E +:+ "/packages".
Proof. unfold manifest_path. intros H. apply (inj _) in H. discriminate H. Qed.

Lemma manifest_path_not_package_dir (E : env) (repo name : string) :
  manifest_path E repo ≠ package_dir E name.
Proof. apply manifest_path_not_packages. Qed.

Lemma manifest_path_not_installed (E : env) (repo name f : string) :
  manifest_path E repo ≠ installed_path E name f.
Proof. apply manifest_path_not_packages. Qed.

Lemma install_platform_supported (E : env) (w : world) (original_name : pyval)
    (link : string) (manifest : Package) (t1 : Z) (supported : list string) (col : Z) :
  pkg_supported manifest = Some supported ->
  dir_type E ∈ supported ->
  color_from_str E ("#" +:+ default "03BAFC" (pkg_color manifest)) = Some col ->
  run (install_platform E original_name link manifest t1) w =
    run (install_files E original_name link manifest (announcement original_name manifest col) t1)
      (log (EvSend (Rich (announcement original_name manifest col))) w).
Proof.
  intros Hsup Hin Hcol. unfold install_platform, Color_from_str.
  rewrite Hsup. cbn -[String.append]. rewrite bool_decide_eq_true_2 by done.
  cbn -[String.append]. rewrite Hcol. reflexivity.
Qed.




(** The sample package [widgets], from [mkdir] on: one report, two files
    on disk, and the module loaded. *)
Example install_widgets_run :
  sends (trace (run (install_files Sample.bot (PStr "widgets") (api_root "acme" "widgets")
                       Sample.widgets (announcement (PStr "widgets") Sample.widgets 244476) 0)
                  Sample.fresh).2)
    = [Text (file_failed "extra.py" "acme" 404)] ∧
  fs (run (install_files Sample.bot (PStr "widgets") (api_root "acme" "widgets")
             Sample.widgets (announcement (PStr "widgets") Sample.widgets 244476) 0)
        Sample.fresh).2 !! "ballsdex/packages/widgets/cog.py"
    = Some (File "async def setup(bot): pass") ∧
  fs (run (install_files Sample.bot (PStr "widgets") (api_root "acme" "widgets")
             Sample.widgets (announcement (PStr "widgets") Sample.widgets 244476) 0)
        Sample.fresh).2 !! "ballsdex/packages/widgets/extra.py"
    = None ∧
  elements (extensions (run (install_files Sample.bot (PStr "widgets") (api_root "acme" "widgets")
                               Sample.widgets (announcement (PStr "widgets") Sample.widgets 244476)
                               0) Sample.fresh).2)
    = ["ballsdex.packages.widgets"].
Proof. vm_compute. repeat split. Qed.

(** ** Links with an owner and a repository *)

Lemma append_nil (b : string) : "" +:+ b = b.
Proof. reflexivity. Qed.

Lemma prefix_append (p s : string) : String.prefix p (p +:+ s) = true.
Proof.
  induction p as [|a p IH]; [by destruct s |].
  rewrite append_cons. simpl. by destruct (ascii_dec a a).
Qed.

Lemma prefix_split (p t : string) : String.prefix p t = true -> exists r, t = p +:+ r.
Proof.
  revert t. induction p as [|a p IH]; intros t Hp; [by exists t |].
  destruct t as [|b t]; [done |]. simpl in Hp.
  destruct (ascii_dec a b) as [->|]; [| done].
  destruct (IH t Hp) as [r ->]. by exists r.
Qed.

Lemma slashes_append (a b : string) : slashes (a +:+ b) = (slashes a + slashes b)%nat.
Proof.
  induction a as [|c a IH]; [done |]. rewrite append_cons. simpl. rewrite IH. lia.
Qed.

Lemma slashes_none (s : string) : Str.has_slash s = false -> slashes s = 0%nat.
Proof.
  induction s as [|c s IH]; [done |]. simpl. destruct (Ascii.eqb c "/"); [done | exact IH].
Qed.

Lemma replace_skip (old new p s : string) :
  Str.replace_from old new (p +:+ s) (String.length p) = Str.replace_from old new s 0.
Proof.
  induction p as [|c p IH]; [by destruct s |]. rewrite append_cons. simpl. exact IH.
Qed.

Lemma replace_prefix (old new s : string) :
  old ≠ "" ->
  Str.replace_from old new (old +:+ s) 0 = new +:+ Str.replace_from old new s 0.
Proof.
  intros Hold. destruct old as [|c old]; [done |].
  rewrite append_cons. cbn [Str.replace_from]. rewrite <- append_cons, prefix_append.
  f_equal. cbn [String.length]. rewrite Nat.sub_succ, Nat.sub_0_r. apply replace_skip.
Qed.

(** A text with fewer than three ["/"] holds no link prefix to remove. *)
Lemma replace_few_slashes (s : string) :
  (slashes s < 3)%nat -> Str.replace_from "https://github.com/" "" s 0 = s.
Proof.
  induction s as [|c s IH]; intros Hs; [done |].
  cbn [Str.replace_from].
  destruct (String.prefix "https://github.com/" (String c s)) eqn:Hp.
  - apply prefix_split in Hp as [r Hr]. rewrite Hr, slashes_append in Hs.
    vm_compute (slashes "https://github.com/") in Hs. lia.
  - f_equal. apply IH. simpl in Hs. lia.
Qed.

Lemma split_no_slash (s : string) : Str.has_slash s = false -> Str.split_from "/" s 0 = [s].
Proof.
  induction s as [|c s IH]; intros Hs; [done |]. simpl in Hs.
  cbn [Str.split_from String.prefix].
  destruct (Ascii.eqb c "/") eqn:Hc; [done |].
  destruct (ascii_dec "/" c) as [<-|_]; [done |]. by rewrite IH.
Qed.

Lemma split_join (a b : string) :
  Str.has_slash a = false ->
  Str.split_from "/" (a +:+ "/" +:+ b) 0 = a :: Str.split_from "/" b 0.
Proof.
  induction a as [|c a IH]; intros Ha.
  - change ("" +:+ "/" +:+ b) with (String "/" b). cbn [Str.split_from String.prefix].
    destruct (ascii_dec "/" "/"); [| done]. by destruct b.
  - simpl in Ha. rewrite append_cons. cbn [Str.split_from String.prefix].
    destruct (Ascii.eqb c "/") eqn:Hc; [done |].
    destruct (ascii_dec "/" c) as [<-|_]; [done |]. by rewrite IH.
Qed.

(** X22. Every link [https://github.com/owner/repo], with an owner and a
    repository that hold no ["/"], is a raw reference, and [install]
    reads it as that owner and that repository. *)
Lemma raw_reference_link (owner repo : string) :
  Str.has_slash owner = false ->
  Str.has_slash repo = false ->
  Str.startswith ("https://github.com/" +:+ owner +:+ "/" +:+ repo) "https://github.com/" = true ∧
  link_segments ("https://github.com/" +:+ owner +:+ "/" +:+ repo) = [owner; repo] ∧
  raw_reference ("https://github.com/" +:+ owner +:+ "/" +:+ repo).
Proof.
  intros Ho Hr.
  assert (Hs : Str.startswith ("https://github.com/" +:+ owner +:+ "/" +:+ repo)
                 "https://github.com/" = true) by apply prefix_append.
  assert (Hseg : link_segments ("https://github.com/" +:+ owner +:+ "/" +:+ repo) = [owner; repo]).
  { unfold link_segments, Str.replace, Str.split.
    rewrite replace_prefix by done. rewrite append_nil, replace_few_slashes.
    - by rewrite split_join, split_no_slash.
    - rewrite !slashes_append, (slashes_none owner Ho), (slashes_none repo Hr). simpl. lia. }
  split; [exact Hs |]. split; [exact Hseg |]. split; [exact Hs |]. rewrite Hseg. simpl. lia.
Qed.

(** * More of the module *)

(** ** Links and manifests that do not get through *)

(** X1. A link that names no repository (nothing, or an owner only,
    after the prefix): [package_info[1]] raises [IndexError] and nothing
    has happened. *)
Theorem install_short_link_raises (E : env) (w : world) (package : string) :
  Str.startswith package "https://github.com/" = true ->
  (length (link_segments package) < 2)%nat ->
  run (install E package) w = (Raised IndexError, w).
Proof.
  intros Hs Hlen. rewrite install_raw by done.
  destruct (link_segments package) as [|owner [|repo rest]]; simpl in Hlen; try lia; reflexivity.
Qed.

Lemma install_short_link_raises_witness :
  Str.startswith "https://github.com/acme" "https://github.com/" = true ∧
  (length (link_segments "https://github.com/acme") < 2)%nat ∧
  run (install Sample.bot "https://github.com/acme") (with_verified true Sample.fresh)
    = (Raised IndexError, with_verified true Sample.fresh).
Proof.
  assert (Hlen : (length (link_segments "https://github.com/acme") < 2)%nat)
    by (vm_compute; lia).
  split; [reflexivity |]. split; [exact Hlen |].
  exact (install_short_link_raises Sample.bot (with_verified true Sample.fresh)
           "https://github.com/acme" eq_refl Hlen).
Defined.

(** X2. The code of [install] from the request for the manifest on
    (line 248), when the request is answered with a status that is not
    [ok]: it sends the failure message with the repository, the owner
    and the status, and returns.  No file is written and nothing else is
    requested. *)
Theorem install_manifest_refused (E : env) (w : world) (original_name : pyval)
    (owner repo : string) (rest : list pyval) (answer : response) :
  remote E (api_root owner repo +:+ "package.yml") = Some answer ->
  status_code answer ≠ request_codes_ok ->
  run (install_manifest E original_name (PStr owner :: PStr repo :: rest)) w =
    (Returned tt,
     log (EvSend (Text (manifest_failed repo owner (status_code answer))))
       (log (EvGet (api_root owner repo +:+ "package.yml")) w)).
Proof.
  intros Hrem Hst.
  unfold api_root in *. unfold install_manifest. cbn -[String.append].
  rewrite Hrem. cbn -[String.append].
  destruct (Z.eqb_spec (status_code answer) request_codes_ok) as [Heq|_]; [done |].
  reflexivity.
Qed.

Lemma install_manifest_refused_witness :
  remote Sample.bot (api_root "acme" "nothing" +:+ "package.yml")
    = Some {| status_code := 404; content := None |} ∧
  status_code {| status_code := 404; content := None |} ≠ request_codes_ok ∧
  run (install_manifest Sample.bot (PStr "nothing") [PStr "acme"; PStr "nothing"]) Sample.fresh =
    (Returned tt,
     log (EvSend (Text (manifest_failed "nothing" "acme" 404)))
       (log (EvGet (api_root "acme" "nothing" +:+ "package.yml")) Sample.fresh)).
Proof.
  assert (Hst : status_code {| status_code := 404; content := None |} ≠ request_codes_ok)
    by discriminate.
  split; [reflexivity |]. split; [exact Hst |].
  exact (install_manifest_refused Sample.bot Sample.fresh (PStr "nothing") "acme" "nothing" [] _
           eq_refl Hst).
Defined.

(** X3. Whatever it is given, [install] installs nothing: it ends at the
    missing second item, at the test of the gate, or with the reply that
    the link is not valid.  The confirmation, the registry, the files
    and the loaded extensions are what they were, and that reply is the
    only event it can add: no request is made. *)
Theorem install_installs_nothing (E : env) (package : string) (w : world) :
  only_events w (run (install E package) w).2 ∧
  (added w (run (install E package) w).2 = [] ∨
   added w (run (install E package) w).2 =
     [EvSend (Text "The link you sent is not a valid GitHub link.")]) ∧
  gets (added w (run (install E package) w).2) = [].
Proof.
  assert (Hsame : added w w = []) by apply drop_all.
  assert (Hsent : forall e, added w (log e w) = [e]).
  { intros e. unfold added. simpl. by rewrite drop_app_length. }
  unfold install. destruct (Str.startswith package _).
  - rewrite install_gate_raises. simpl. rewrite Hsame.
    split; [by repeat split |]. split; [by left | done].
  - simpl. rewrite found_package_lookup.
    destruct (verified_packages w !! package) as [url|]; simpl.
    + rewrite Hsame. split; [by repeat split |]. split; [by left | done].
    + rewrite Hsent. split; [by repeat split |]. split; [by right | done].
Qed.

(** X4. The code of [install] from the request for the manifest on, for a
    manifest whose bytes are not UTF-8: the manifest file has been
    opened for writing by then, so it is left empty, whatever it held
    before, and the code ends with the decoding error. *)
Theorem install_undecodable_manifest (E : env) (w : world) (original_name : pyval)
    (owner repo : string) (rest : list pyval) (answer : response) (c : string) :
  remote E (api_root owner repo +:+ "package.yml") = Some answer ->
  status_code answer = request_codes_ok ->
  content answer = Some c ->
  writable (fs w) (manifest_path E repo) ->
  utf8 E c = None ->
  run (install_manifest E original_name (PStr owner :: PStr repo :: rest)) w =
    (Raised DecodeError,
     with_fs (<[manifest_path E repo := File ""]> (fs w))
       (log (EvGet (api_root owner repo +:+ "package.yml")) w)).
Proof.
  intros Hrem Hst Hc [Hpar Hnd] Hutf.
  unfold api_root, manifest_path in *. unfold install_manifest. cbn -[String.append].
  rewrite Hrem. cbn -[String.append]. rewrite Hst. cbn -[String.append].
  unfold b64decode_content. rewrite Hc. cbn -[String.append]. rewrite Hpar.
  destruct (fs w !! (dir_type E +:+ "/data/" +:+ repo +:+ ".yml")) as [[|data]|] eqn:Hl;
    [done | |]; cbn -[String.append]; unfold decode; rewrite Hutf; reflexivity.
Qed.

Lemma install_undecodable_manifest_witness :
  remote Sample.picky_bot (api_root "acme" "widgets" +:+ "package.yml")
    = Some {| status_code := 200; content := Some "name: widgets" |} ∧
  writable (fs Sample.installed) (manifest_path Sample.picky_bot "widgets") ∧
  utf8 Sample.picky_bot "name: widgets" = None ∧
  fs Sample.installed !! manifest_path Sample.picky_bot "widgets" = Some (File "name: widgets") ∧
  run (install_manifest Sample.picky_bot (PStr "widgets") [PStr "acme"; PStr "widgets"])
      Sample.installed =
    (Raised DecodeError,
     with_fs (<[manifest_path Sample.picky_bot "widgets" := File ""]> (fs Sample.installed))
       (log (EvGet (api_root "acme" "widgets" +:+ "package.yml")) Sample.installed)).
Proof.
  assert (Hwr : writable (fs Sample.installed) (manifest_path Sample.picky_bot "widgets")).
  { split; [reflexivity | vm_compute; discriminate]. }
  split; [reflexivity |]. split; [exact Hwr |]. split; [reflexivity |].
  split; [reflexivity |].
  exact (install_undecodable_manifest Sample.picky_bot Sample.installed (PStr "widgets")
           "acme" "widgets" [] _ "name: widgets" eq_refl eq_refl eq_refl Hwr eq_refl).
Defined.

(** ** Activation *)

(** X5. The extension is loaded already, an update: the refusal of
    [load_extension] is answered by [reload_extension], and [install]
    goes on to its last message.  The loaded extensions are the same. *)
Theorem install_activate_reloads (E : env) (w : world) (original_name : pyval)
    (manifest : Package) (embed : Embed) (t1 : Z) (name text : string) :
  pkg_name manifest = Some name ->
  pkg_description manifest = Some text ->
  module_name E name ∈ extensions w ->
  host_accepts E (fs w) (module_name E name) = true ->
  (run (install_activate E original_name manifest embed t1) w).1 = Returned tt ∧
  extensions (run (install_activate E original_name manifest embed t1) w).2 = extensions w ∧
  exists done,
    trace (run (install_activate E original_name manifest embed t1) w).2 =
    trace w ++ [EvLoad (module_name E name); EvReload (module_name E name); EvEdit done].
Proof.
  intros Hname Hd Hin Hok. unfold install_activate, module_name in *.
  rewrite Hname, Hd. cbn -[String.append].
  rewrite decide_True by done. cbn -[String.append].
  rewrite decide_True by done. rewrite Hok. cbn -[String.append].
  split; [done |]. split; [done |]. eexists. by rewrite <- !app_assoc.
Qed.

Lemma install_activate_reloads_witness :
  pkg_name Sample.widgets = Some "widgets" ∧
  pkg_description Sample.widgets = Some "Widgets for your dex." ∧
  module_name Sample.bot "widgets" ∈ extensions Sample.installed ∧
  host_accepts Sample.bot (fs Sample.installed) (module_name Sample.bot "widgets") = true ∧
  (run (install_activate Sample.bot (PStr "widgets") Sample.widgets
          (announcement (PStr "widgets") Sample.widgets 244476) 0) Sample.installed).1
    = Returned tt ∧
  extensions (run (install_activate Sample.bot (PStr "widgets") Sample.widgets
                     (announcement (PStr "widgets") Sample.widgets 244476) 0) Sample.installed).2
    = extensions Sample.installed ∧
  exists done,
    trace (run (install_activate Sample.bot (PStr "widgets") Sample.widgets
                  (announcement (PStr "widgets") Sample.widgets 244476) 0) Sample.installed).2 =
    trace Sample.installed ++
      [EvLoad (module_name Sample.bot "widgets"); EvReload (module_name Sample.bot "widgets");
       EvEdit done].
Proof.
  assert (Hin : module_name Sample.bot "widgets" ∈ extensions Sample.installed).
  { vm_compute. reflexivity. }
  split; [reflexivity |]. split; [reflexivity |]. split; [exact Hin |]. split; [reflexivity |].
  exact (install_activate_reloads Sample.bot Sample.installed (PStr "widgets") Sample.widgets
           (announcement (PStr "widgets") Sample.widgets 244476) 0 "widgets"
           "Widgets for your dex." eq_refl eq_refl Hin eq_refl).
Defined.

(** X6. The bot cannot take the extension: [install] ends with
    [ExtensionFailed], whether the extension was loaded before or not.
    After the request to load, and to reload when it was loaded, nothing
    follows: the message is never edited to say that the package is
    installed.  The loaded extensions and the files stay as they are. *)
Theorem install_activate_fails (E : env) (w : world) (original_name : pyval)
    (manifest : Package) (embed : Embed) (t1 : Z) (name : string) :
  pkg_name manifest = Some name ->
  host_accepts E (fs w) (module_name E name) = false ->
  (run (install_activate E original_name manifest embed t1) w).1
    = Raised (ExtensionFailed (module_name E name)) ∧
  extensions (run (install_activate E original_name manifest embed t1) w).2 = extensions w ∧
  fs (run (install_activate E original_name manifest embed t1) w).2 = fs w ∧
  trace (run (install_activate E original_name manifest embed t1) w).2 =
    trace w ++ EvLoad (module_name E name)
      :: (if decide (module_name E name ∈ extensions w)
          then [EvReload (module_name E name)] else []).
Proof.
  intros Hname Hno. unfold install_activate, module_name in *.
  rewrite Hname. cbn -[String.append].
  destruct (decide (dir_type E +:+ ".packages." +:+ name ∈ extensions w)) as [Hin|Hout];
    cbn -[String.append].
  - rewrite decide_True by done. rewrite Hno. cbn -[String.append].
    split; [done |]. split; [done |]. split; [done |]. by rewrite <- app_assoc.
  - rewrite Hno. cbn -[String.append]. done.
Qed.

Lemma install_activate_fails_witness :
  pkg_name Sample.widgets = Some "widgets" ∧
  host_accepts Sample.picky_bot (fs Sample.installed) (module_name Sample.picky_bot "widgets")
    = false ∧
  (run (install_activate Sample.picky_bot (PStr "widgets") Sample.widgets
          (announcement (PStr "widgets") Sample.widgets 244476) 0) Sample.installed).1
    = Raised (ExtensionFailed (module_name Sample.picky_bot "widgets")) ∧
  extensions (run (install_activate Sample.picky_bot (PStr "widgets") Sample.widgets
                     (announcement (PStr "widgets") Sample.widgets 244476) 0) Sample.installed).2
    = extensions Sample.installed ∧
  fs (run (install_activate Sample.picky_bot (PStr "widgets") Sample.widgets
            (announcement (PStr "widgets") Sample.widgets 244476) 0) Sample.installed).2
    = fs Sample.installed ∧
  trace (run (install_activate Sample.picky_bot (PStr "widgets") Sample.widgets
                (announcement (PStr "widgets") Sample.widgets 244476) 0) Sample.installed).2 =
    trace Sample.installed ++ EvLoad (module_name Sample.picky_bot "widgets")
      :: (if decide (module_name Sample.picky_bot "widgets" ∈ extensions Sample.installed)
          then [EvReload (module_name Sample.picky_bot "widgets")] else []).
Proof.
  split; [reflexivity |]. split; [reflexivity |].
  exact (install_activate_fails Sample.picky_bot Sample.installed (PStr "widgets") Sample.widgets
           (announcement (PStr "widgets") Sample.widgets 244476) 0 "widgets" eq_refl eq_refl).
Defined.

(** ** Version check, view and update *)

(** X7. [check_version] never returns a notice, and never asks for the
    latest version: its first line reads [script_settings], which
    nothing binds, and it ends there with [NameError]. *)
Theorem check_version_no_notice (E : env) (w : world) :
  run (check_version E) w = (Raised (NameError "script_settings"), w).
Proof. unfold check_version, unbound. simpl. reflexivity. Qed.

(** X8. [update_dp] never hands anything to [eval]: whatever the remote
    answers, it raises at [r] right after the request (or at the request
    itself), and the failure message is not sent either. *)
Theorem update_dp_never_evaluates (E : env) (eval : string -> coro unit) (w : world) :
  run (update_dp E eval) w =
    (Raised
       match remote E "https://api.github.com/repos/Dotsian/DexPack/contents/installer.py" with
       | Some _ => NameError "r"
       | None => ConnectionError
       end,
     log (EvGet "https://api.github.com/repos/Dotsian/DexPack/contents/installer.py") w).
Proof.
  unfold update_dp. cbn -[String.append]. by destruct (remote E _).
Qed.

(** X9. [view] cannot show anything, neither the card of DexPack nor a
    package nor the reply that a package does not exist: once the colour
    is read it runs [check_version], which raises.  Nothing is sent and
    nothing is requested. *)
Theorem view_always_raises (E : env) (w : world) (package : string) (c : Z) :
  color_from_str E "#03BAFC" = Some c ->
  run (view E package) w = (Raised (NameError "script_settings"), w).
Proof. intros Hc. unfold view, Color_from_str. rewrite Hc. reflexivity. Qed.

Lemma view_always_raises_witness :
  color_from_str Sample.bot "#03BAFC" = Some 244476 ∧
  fs Sample.installed !! manifest_path Sample.bot "widgets" = Some (File "name: widgets") ∧
  run (view Sample.bot "widgets") Sample.installed =
    (Raised (NameError "script_settings"), Sample.installed).
Proof.
  split; [reflexivity |]. split; [reflexivity |].
  exact (view_always_raises Sample.bot Sample.installed "widgets" 244476 eq_refl).
Defined.

(** ** What the commands leave alone *)

#[local] Instance same_registry_refl : Reflexive same_registry.
Proof. by intros w. Qed.

#[local] Instance same_registry_trans : Transitive same_registry.
Proof. unfold same_registry. intros w1 w2 w3 H1 H2. congruence. Qed.

#[local] Instance keeps_path_refl (k : string) : Reflexive (keeps_path k).
Proof. by intros w. Qed.

#[local] Instance keeps_path_trans (k : string) : Transitive (keeps_path k).
Proof. unfold keeps_path. intros w1 w2 w3 H1 H2. congruence. Qed.

#[local] Instance only_events_refl : Reflexive only_events.
Proof. by intros w. Qed.

#[local] Instance only_events_trans : Transitive only_events.
Proof.
  unfold only_events. intros w1 w2 w3 (?&?&?&?) (?&?&?&?). repeat split; congruence.
Qed.

Lemma prefix_weaken (a b k : string) :
  String.prefix (a +:+ b) k = true -> String.prefix a k = true.
Proof.
  intros H. apply prefix_split in H as [r ->]. rewrite append_assoc. apply prefix_append.
Qed.

Lemma data_path_ne (E : env) (k x : string) :
  Str.startswith k (dir_type E +:+ "/data/") = false -> dir_type E +:+ "/data/" +:+ x ≠ k.
Proof.
  intros Hk <-. unfold Str.startswith in Hk. rewrite <- append_assoc in Hk.
  by rewrite prefix_append in Hk.
Qed.

Lemma packages_path_ne (E : env) (k x : string) :
  Str.startswith k (dir_type E +:+ "/packages/") = false ->
  dir_type E +:+ "/packages/" +:+ x ≠ k.
Proof.
  intros Hk <-. unfold Str.startswith in Hk. rewrite <- append_assoc in Hk.
  by rewrite prefix_append in Hk.
Qed.

Lemma not_under_packages (E : env) (k x : string) :
  Str.startswith k (dir_type E +:+ "/packages/") = false ->
  under (dir_type E +:+ "/packages/" +:+ x) k = false.
Proof.
  intros Hk. unfold under. apply orb_false_intro.
  - apply bool_decide_eq_false_2. intros ->. by apply (packages_path_ne E _ x Hk).
  - apply not_true_is_false. intros Hp. unfold Str.startswith in *.
    rewrite <- (append_assoc (dir_type E) "/packages/" x), append_assoc in Hp.
    apply prefix_weaken in Hp. congruence.
Qed.

Lemma lookup_filter_keep {A : Type} (P : string * A -> Prop) `{!forall x, Decision (P x)}
    (m : gmap string A) (k : string) :
  (forall v, P (k, v)) -> filter P m !! k = m !! k.
Proof.
  intros HP. destruct (m !! k) as [v|] eqn:Hk.
  - by apply map_lookup_filter_Some_2.
  - apply map_lookup_filter_None. by left.
Qed.

(** The steps of a command, one relation at a time: [solve_prim] settles
    what a primitive does to the state. *)
Ltac stepwise_with solve_prim :=
  repeat first
    [ apply stepwise_Ret
    | apply stepwise_Raise
    | apply stepwise_Await
    | apply stepwise_index
    | apply stepwise_attribute
    | apply stepwise_lift
    | progress cbn [bind]
    | apply stepwise_await; [typeclasses eauto .. |]
    | apply stepwise_bind; [typeclasses eauto .. | | intros ?]
    | apply stepwise_for_each; [typeclasses eauto .. | intros ?]
    | apply stepwise_try_except;
        [typeclasses eauto ..
        |
        | let e := fresh "e" in
          let He := fresh "He" in
          intros e ? He; destruct e; try discriminate He; injection He as <- ]
    | apply stepwise_prim; intros ?; simpl; solve [solve_prim]
    | apply stepwise_Sync; [intros ?; simpl; solve [solve_prim] | intros ?]
    | match goal with
      | |- stepwise _ (if ?b then _ else _) => destruct b
      | |- stepwise _ (match ?x with _ => _ end) => destruct x
      end
    | progress unfold mbind, coro_bind
    | progress unfold decode, yaml_load, b64decode_content, Color_from_str, unbound,
        no_attribute ].

Ltac prim_cases :=
  repeat match goal with
         | |- context [match ?x with _ => _ end] => destruct x; simpl
         end.

Ltac registry_prim := prim_cases; reflexivity.

Ltac events_prim := prim_cases; by repeat split.

Section Frames.

Variable E : env.

Lemma install_same_registry (package : string) : stepwise same_registry (install E package).
Proof.
  unfold install, install_gate, install_proceed, install_manifest, install_platform,
    install_files, install_file, install_activate.
  stepwise_with registry_prim.
Qed.

Lemma uninstall_same_registry (package : string) : stepwise same_registry (uninstall E package).
Proof. unfold uninstall. stepwise_with registry_prim. Qed.

Lemma verify_same_registry : stepwise same_registry verify.
Proof. unfold verify. stepwise_with registry_prim. Qed.

Lemma view_same_registry (package : string) :
  stepwise same_registry (view E package).
Proof. unfold view, check_version, fetch_package. stepwise_with registry_prim. Qed.

Lemma update_dp_same_registry (eval : string -> coro unit) :
  stepwise same_registry (update_dp E eval).
Proof. unfold update_dp. stepwise_with registry_prim. Qed.

Lemma view_only_events (package : string) :
  stepwise only_events (view E package).
Proof. unfold view, check_version, fetch_package. stepwise_with events_prim. Qed.

End Frames.

Ltac path_prim E :=
  prim_cases; unfold keeps_path; simpl;
  first
    [ reflexivity
    | apply lookup_insert_ne; first [by apply (data_path_ne E) | by apply (packages_path_ne E)]
    | apply lookup_filter_keep; intros ?; simpl; by apply (not_under_packages E) ].

(** What [uninstall] and the code of [install] write or remove lies
    below [<dir_type>/packages/], but for the manifest file. *)
Section OutsidePackages.

Variables (E : env) (k : string).
Hypothesis outside_packages : Str.startswith k (dir_type E +:+ "/packages/") = false.

Lemma install_platform_keeps_path (original_name : pyval) (link : string) (m : Package) (t1 : Z) :
  stepwise (keeps_path k) (install_platform E original_name link m t1).
Proof.
  unfold install_platform, install_files, install_file, install_activate.
  stepwise_with ltac:(path_prim E).
Qed.

Lemma uninstall_keeps_path (package : string) : stepwise (keeps_path k) (uninstall E package).
Proof. unfold uninstall. stepwise_with ltac:(path_prim E). Qed.

(** And not below [<dir_type>/data/] either. *)
Hypothesis outside_data : Str.startswith k (dir_type E +:+ "/data/") = false.

Lemma install_manifest_keeps_path (original_name : pyval) (package_info : list pyval) :
  stepwise (keeps_path k) (install_manifest E original_name package_info).
Proof.
  unfold install_manifest.
  stepwise_with ltac:(path_prim E); apply install_platform_keeps_path.
Qed.

End OutsidePackages.

Section Sessions.

Variables (E : env) (eval : string -> coro unit).

Lemma session_respects (R : world -> world -> Prop) `{!Reflexive R, !Transitive R}
    (cs : list command) :
  (forall c, c ∈ cs -> stepwise R (perform E eval c)) ->
  forall w, R w (session E eval cs w).
Proof.
  induction cs as [|c cs IH]; intros Hcs w; simpl; [reflexivity |].
  transitivity (run (perform E eval c) w).2.
  - apply stepwise_run; [done .. |]. apply Hcs. by left.
  - apply IH. intros c' Hc'. apply Hcs. by right.
Qed.

Lemma perform_same_registry (c : command) : stepwise same_registry (perform E eval c).
Proof.
  destruct c; simpl;
    [apply view_same_registry | apply install_same_registry | apply uninstall_same_registry
    | apply verify_same_registry | apply update_dp_same_registry].
Qed.

Lemma perform_keeps_unconfirmed (c : command) :
  c ≠ DoVerify -> stepwise keeps_unconfirmed (perform E eval c).
Proof.
  intros Hc. destruct c; simpl; [| apply stepwise_install | | done |].
  - unfold view, check_version, fetch_package. stepwise_with stepwise_prims.
  - unfold uninstall. stepwise_with stepwise_prims.
  - unfold update_dp. stepwise_with stepwise_prims.
Qed.

Lemma session_same_registry (cs : list command) (w : world) :
  same_registry w (session E eval cs w).
Proof. apply session_respects; [apply _ .. |]. intros c _. apply perform_same_registry. Qed.

End Sessions.

(** X11. No command changes the registry: after any sequence of [view],
    [install], [uninstall], [verify] and [update-dp], [verified_packages]
    is what it was. *)
Theorem session_keeps_registry (E : env) (eval : string -> coro unit)
    (cs : list command) (w : world) :
  verified_packages (session E eval cs w) = verified_packages w.
Proof. apply session_same_registry. Qed.

(** X12. The registry is empty when the module has set it up, and stays
    so: after any sequence of commands, [install] of a bare name still
    answers that the link is not valid, and does nothing else. *)
Theorem session_bare_name_refused (E : env) (eval : string -> coro unit)
    (cs : list command) (w : world) (package : string) :
  verified_packages w = ∅ ->
  bare_name package ->
  run (install E package) (session E eval cs w) =
    (Returned tt,
     log (EvSend (Text "The link you sent is not a valid GitHub link."))
       (session E eval cs w)).
Proof.
  intros Hempty Hb. unfold install. rewrite Hb. simpl.
  rewrite found_package_lookup, (session_same_registry E eval cs w), Hempty, lookup_empty.
  reflexivity.
Qed.

Lemma session_bare_name_refused_witness :
  verified_packages Sample.fresh = ∅ ∧
  bare_name "widgets" ∧
  run (install Sample.bot "widgets")
    (session Sample.bot (fun _ => Ret tt)
       [DoVerify; DoInstall "https://github.com/acme/widgets"; DoView "widgets";
        DoUninstall "widgets"; DoUpdate] Sample.fresh) =
    (Returned tt,
     log (EvSend (Text "The link you sent is not a valid GitHub link."))
       (session Sample.bot (fun _ => Ret tt)
          [DoVerify; DoInstall "https://github.com/acme/widgets"; DoView "widgets";
           DoUninstall "widgets"; DoUpdate] Sample.fresh)).
Proof.
  split; [reflexivity |]. split; [reflexivity |].
  exact (session_bare_name_refused Sample.bot (fun _ => Ret tt)
           [DoVerify; DoInstall "https://github.com/acme/widgets"; DoView "widgets";
            DoUninstall "widgets"; DoUpdate] Sample.fresh "widgets" eq_refl eq_refl).
Defined.

(** X13. Only [verify] sets the confirmation: a sequence of commands
    without it, started with no confirmation pending, ends with none. *)
Theorem session_only_verify_confirms (E : env) (eval : string -> coro unit)
    (cs : list command) (w : world) :
  DoVerify ∉ cs ->
  verified w = false ->
  verified (session E eval cs w) = false.
Proof.
  intros Hcs Hv.
  assert (Hk : keeps_unconfirmed w (session E eval cs w)).
  { apply (session_respects E eval keeps_unconfirmed). intros c Hc.
    apply perform_keeps_unconfirmed. by intros ->. }
  by apply Hk.
Qed.

Lemma session_only_verify_confirms_witness :
  (DoVerify ∉ [DoInstall "https://github.com/acme/widgets"; DoView "widgets";
               DoUninstall "widgets"; DoUpdate]) ∧
  verified Sample.fresh = false ∧
  verified (session Sample.bot (fun _ => Ret tt)
              [DoInstall "https://github.com/acme/widgets"; DoView "widgets";
               DoUninstall "widgets"; DoUpdate] Sample.fresh) = false.
Proof.
  assert (Hno : DoVerify ∉ [DoInstall "https://github.com/acme/widgets"; DoView "widgets";
                            DoUninstall "widgets"; DoUpdate]).
  { intros Hin. repeat (apply elem_of_cons in Hin as [Hin|Hin]; [discriminate Hin |]).
    by apply elem_of_nil in Hin. }
  split; [exact Hno |]. split; [reflexivity |].
  exact (session_only_verify_confirms Sample.bot (fun _ => Ret tt) _ Sample.fresh
           Hno eq_refl).
Defined.

(** ** Nothing is ever installed *)

#[local] Instance nothing_installed_refl : Reflexive nothing_installed.
Proof. by intros w. Qed.

#[local] Instance nothing_installed_trans : Transitive nothing_installed.
Proof. intros w1 w2 w3 [Hf1 Hx1] [Hf2 Hx2]. split; by etransitivity. Qed.

#[local] Instance requests_installer_only_refl : Reflexive requests_installer_only.
Proof. intros w. exists []. by rewrite app_nil_r. Qed.

#[local] Instance requests_installer_only_trans : Transitive requests_installer_only.
Proof.
  intros w1 w2 w3 (evs1 & Ht1 & Hg1) (evs2 & Ht2 & Hg2). exists (evs1 ++ evs2).
  split; [by rewrite Ht2, Ht1, app_assoc |].
  unfold gets. rewrite omap_app. by apply Forall_app.
Qed.

Lemma view_raises (E : env) (package : string) :
  exists e, view E package = Raise e.
Proof.
  unfold view, Color_from_str. destruct (color_from_str E "#03BAFC"); simpl; eauto.
Qed.

(** The steps of [install] that can be taken. *)
Lemma stepwise_install_any (R : world -> world -> Prop) `{!Reflexive R} (E : env)
    (package : string) :
  (forall e w, R w (log (EvSend e) w)) ->
  stepwise R (install E package).
Proof.
  intros Hsend. unfold install. destruct (Str.startswith package _).
  - rewrite install_gate_raises. constructor.
  - unfold get_verified_packages. simpl. constructor; [done |]. intros items.
    destruct (filter _ (map_to_list items)) as [|x found]; simpl.
    + constructor; [intros w; apply Hsend |]. intros []. repeat constructor.
    + rewrite install_gate_raises. constructor.
Qed.

Ltac installed_prim :=
  prim_cases; split; simpl;
  first [ reflexivity | apply map_filter_subseteq | apply subseteq_difference_l; reflexivity ].

Ltac installer_prim :=
  prim_cases; simpl;
  first
    [ by (exists []; rewrite app_nil_r)
    | by (eexists [_]; (split; [reflexivity |]); repeat constructor) ].

Section Nothing.

Variables (E : env) (eval : string -> coro unit).

Lemma perform_nothing_installed (c : command) :
  stepwise nothing_installed (perform E eval c).
Proof.
  destruct c; simpl.
  - destruct (view_raises E package) as [e ->]. constructor.
  - apply stepwise_install_any; [apply _ |]. by intros e w.
  - unfold uninstall. stepwise_with installed_prim.
  - unfold verify. stepwise_with installed_prim.
  - unfold update_dp. stepwise_with installed_prim.
Qed.

Lemma perform_requests_installer_only (c : command) :
  stepwise requests_installer_only (perform E eval c).
Proof.
  destruct c; simpl.
  - destruct (view_raises E package) as [e ->]. constructor.
  - apply stepwise_install_any; [apply _ |]. intros e w. by exists [EvSend e].
  - unfold uninstall. stepwise_with installer_prim.
  - unfold verify. stepwise_with installer_prim.
  - unfold update_dp. cbn -[String.append]. fold installer_url.
    apply stepwise_Sync; [| intros [r|e]; simpl; constructor].
    intros w. destruct (remote E installer_url); simpl;
      (eexists [_]; split; [reflexivity |]; by repeat constructor).
Qed.

End Nothing.

(** X23. No sequence of commands installs anything: after any sequence of
    [view], [install], [uninstall], [verify] and [update-dp], every file
    is one that was there before, with what it held, and every loaded
    extension is one that was loaded before.  Files and extensions can
    only go away. *)
Theorem session_installs_nothing (E : env) (eval : string -> coro unit)
    (cs : list command) (w : world) :
  fs (session E eval cs w) ⊆ fs w ∧ extensions (session E eval cs w) ⊆ extensions w.
Proof.
  apply (session_respects E eval nothing_installed). intros c _.
  apply perform_nothing_installed.
Qed.

(** X24. The only request a command ever makes is the one of [update-dp]
    for the installer: after any sequence of commands, every request
    among the new events is for [installer.py].  No manifest, no file
    of a package and no version is ever asked for. *)
Theorem session_requests_installer_only (E : env) (eval : string -> coro unit)
    (cs : list command) (w : world) :
  exists evs,
    trace (session E eval cs w) = trace w ++ evs ∧
    Forall (fun url => url = installer_url) (gets evs).
Proof.
  apply (session_respects E eval requests_installer_only). intros c _.
  apply perform_requests_installer_only.
Qed.

(** X14. [view] reads only: whatever it is asked and however it ends,
    the confirmation, the registry, the files and the loaded extensions
    are what they were. *)
Theorem view_changes_nothing (E : env) (package : string) (w : world) :
  verified (run (view E package) w).2 = verified w ∧
  verified_packages (run (view E package) w).2 = verified_packages w ∧
  fs (run (view E package) w).2 = fs w ∧
  extensions (run (view E package) w).2 = extensions w.
Proof. apply (stepwise_run only_events), view_only_events. Qed.

(** X15. [uninstall] never removes a manifest file: for plain names,
    whatever package it is given and however it ends, the manifest file
    [<dir_type>/data/<name>.yml] holds what it held, also the one of the
    package that is removed. *)
Theorem uninstall_keeps_manifests (E : env) (w : world) (package name : string) :
  plain_name package ->
  plain_name name ->
  fs (run (uninstall E package) w).2 !! manifest_path E name = fs w !! manifest_path E name.
Proof.
  intros _ _.
  apply (stepwise_run (keeps_path (manifest_path E name))), uninstall_keeps_path.
  apply not_true_is_false. intros Hp. apply prefix_split in Hp as [r Hr].
  rewrite append_assoc in Hr. by apply (manifest_path_not_packages E name ("/" +:+ r)).
Qed.

Lemma uninstall_keeps_manifests_witness :
  plain_name "widgets" ∧
  fs Sample.installed !! manifest_path Sample.bot "widgets" = Some (File "name: widgets") ∧
  fs (run (uninstall Sample.bot "widgets") Sample.installed).2 !! manifest_path Sample.bot "widgets"
    = fs Sample.installed !! manifest_path Sample.bot "widgets".
Proof.
  assert (Hplain : plain_name "widgets").
  { split; [reflexivity |]. split; [discriminate |]. split; discriminate. }
  split; [exact Hplain |]. split; [reflexivity |].
  exact (uninstall_keeps_manifests Sample.bot Sample.installed "widgets" "widgets" Hplain Hplain).
Defined.

(** ** The stored manifest *)

Lemma manifest_path_outside_packages (E : env) (repo : string) :
  Str.startswith (manifest_path E repo) (dir_type E +:+ "/packages/") = false.
Proof.
  apply not_true_is_false. intros Hp. apply prefix_split in Hp as [r Hr].
  rewrite append_assoc in Hr. by apply (manifest_path_not_packages E repo ("/" +:+ r)).
Qed.

Lemma install_manifest_unparsed (E : env) (w : world) (original_name : pyval)
    (owner repo : string) (rest : list pyval) (answer : response) (c text : string) :
  remote E (api_root owner repo +:+ "package.yml") = Some answer ->
  status_code answer = request_codes_ok ->
  content answer = Some c ->
  writable (fs w) (manifest_path E repo) ->
  utf8 E c = Some text ->
  yaml E c = None ->
  run (install_manifest E original_name (PStr owner :: PStr repo :: rest)) w =
    (Raised (yaml_error E c),
     with_fs (<[manifest_path E repo := File text]> (fs w))
       (log (EvGet (api_root owner repo +:+ "package.yml")) w)).
Proof.
  intros Hrem Hst Hc [Hpar Hnd] Hutf Hy.
  unfold api_root, manifest_path in *.
  unfold install_manifest. cbn -[String.append].
  rewrite Hrem. cbn -[String.append]. rewrite Hst. cbn -[String.append].
  unfold b64decode_content. rewrite Hc. cbn -[String.append].
  rewrite Hpar.
  destruct (fs w !! (dir_type E +:+ "/data/" +:+ repo +:+ ".yml")) as [[|data]|] eqn:Hl;
    [done | |]; cbn -[String.append];
    unfold decode, yaml_load; rewrite Hutf; cbn -[String.append]; rewrite Hy;
    cbn -[String.append]; unfold with_fs, log; cbn -[String.append];
    by rewrite insert_insert_eq.
Qed.

Lemma widgets_plain : plain_manifest Sample.widgets.
Proof.
  split.
  - intros n Hn. injection Hn as <-.
    split; [reflexivity |]. split; [discriminate |]. split; discriminate.
  - intros fl f Hfl Hf. injection Hfl as <-.
    repeat (apply elem_of_cons in Hf as [->|Hf]); [| | | by apply elem_of_nil in Hf];
      (split; [reflexivity |]; split; [discriminate |]; split; discriminate).
Qed.

(** The manifest file, once written, is not written again by the rest of
    the code. *)
Lemma manifest_stays_stored (E : env) (w : world) (original_name : pyval)
    (owner repo : string) (rest : list pyval) (answer : response) (c text : string) :
  remote E (api_root owner repo +:+ "package.yml") = Some answer ->
  status_code answer = request_codes_ok ->
  content answer = Some c ->
  writable (fs w) (manifest_path E repo) ->
  utf8 E c = Some text ->
  fs (run (install_manifest E original_name (PStr owner :: PStr repo :: rest)) w).2
    !! manifest_path E repo = Some (File text).
Proof.
  intros Hrem Hst Hc Hwr Hutf.
  destruct (yaml E c) as [manifest|] eqn:Hy.
  - rewrite (install_manifest_stored E _ _ owner repo _ answer c text manifest) by done.
    rewrite (stepwise_run (keeps_path (manifest_path E repo)) _ _
               (install_platform_keeps_path E _ (manifest_path_outside_packages E repo) _ _ _ _)).
    simpl. apply lookup_insert_eq.
  - rewrite (install_manifest_unparsed E _ _ owner repo _ answer c text) by done.
    simpl. apply lookup_insert_eq.
Qed.

(** X16. The code of [install] from the request for the manifest on
    (line 248): once the manifest is fetched and stored, it stays
    stored.  For a manifest with plain names, however the rest goes (a
    manifest that does not parse, a platform that is not supported,
    files that fail, an extension that does not load), the manifest file
    holds the fetched text at the end. *)
Theorem install_stores_manifest (E : env) (w : world) (original_name : pyval)
    (owner repo : string) (rest : list pyval) (answer : response) (c text : string) :
  remote E (api_root owner repo +:+ "package.yml") = Some answer ->
  status_code answer = request_codes_ok ->
  content answer = Some c ->
  writable (fs w) (manifest_path E repo) ->
  utf8 E c = Some text ->
  (forall manifest, yaml E c = Some manifest -> plain_manifest manifest) ->
  fs (run (install_manifest E original_name (PStr owner :: PStr repo :: rest)) w).2
    !! manifest_path E repo = Some (File text).
Proof. intros ? ? ? ? ? _. by eapply manifest_stays_stored. Qed.

Lemma install_stores_manifest_witness :
  remote Sample.bot (api_root "acme" "widgets" +:+ "package.yml")
    = Some {| status_code := 200; content := Some "name: widgets" |} ∧
  writable (fs Sample.fresh) (manifest_path Sample.bot "widgets") ∧
  utf8 Sample.bot "name: widgets" = Some "name: widgets" ∧
  yaml Sample.bot "name: widgets" = Some Sample.widgets ∧
  plain_manifest Sample.widgets ∧
  fs (run (install_manifest Sample.bot (PStr "widgets") [PStr "acme"; PStr "widgets"])
        Sample.fresh).2
    !! manifest_path Sample.bot "widgets" = Some (File "name: widgets").
Proof.
  assert (Hwr : writable (fs Sample.fresh) (manifest_path Sample.bot "widgets")).
  { split; [reflexivity | vm_compute; discriminate]. }
  pose proof widgets_plain as Hplain.
  assert (Hall : forall manifest,
            yaml Sample.bot "name: widgets" = Some manifest -> plain_manifest manifest).
  { intros manifest Hm. injection Hm as <-. exact Hplain. }
  split; [reflexivity |]. split; [exact Hwr |]. split; [reflexivity |].
  split; [reflexivity |]. split; [exact Hplain |].
  exact (install_stores_manifest Sample.bot Sample.fresh (PStr "widgets") "acme" "widgets" []
           _ "name: widgets" "name: widgets" eq_refl eq_refl eq_refl Hwr eq_refl Hall).
Defined.

(** What [fetch_package] answers: the parsed manifest when the file is
    there, [None] when no file is; it changes nothing. *)
Lemma fetch_package_run (E : env) (name : string) (w : world) :
  run (fetch_package E name) w =
    (match fs w !! manifest_path E name with
     | Some (File text) =>
         match yaml E text with
         | Some manifest => Returned (Some manifest)
         | None => Raised (yaml_error E text)
         end
     | _ => Returned None
     end, w).
Proof.
  unfold fetch_package, manifest_path, yaml_load.
  destruct (fs w !! (dir_type E +:+ "/data/" +:+ name +:+ ".yml")) as [[|text]|] eqn:Hl;
    cbn -[String.append]; unfold is_file; rewrite Hl; cbn -[String.append]; [done | | done].
  rewrite Hl. cbn -[String.append]. by destruct (yaml E text).
Qed.

(** X17. [fetch_package] reads back what the code of [install] stored:
    after that code, from the request for the manifest on, has got its
    manifest, [fetch_package] of the name of the repository returns the
    manifest parsed from the stored text, and leaves the state as it
    is. *)
Theorem fetch_package_after_install (E : env) (w : world) (original_name : pyval)
    (owner repo : string) (rest : list pyval) (answer : response) (c text : string)
    (manifest : Package) :
  remote E (api_root owner repo +:+ "package.yml") = Some answer ->
  status_code answer = request_codes_ok ->
  content answer = Some c ->
  writable (fs w) (manifest_path E repo) ->
  utf8 E c = Some text ->
  (forall fetched_manifest, yaml E c = Some fetched_manifest -> plain_manifest fetched_manifest) ->
  yaml E text = Some manifest ->
  run (fetch_package E repo)
      (run (install_manifest E original_name (PStr owner :: PStr repo :: rest)) w).2 =
    (Returned (Some manifest),
     (run (install_manifest E original_name (PStr owner :: PStr repo :: rest)) w).2).
Proof.
  intros Hrem Hst Hc Hwr Hutf _ Hy.
  rewrite fetch_package_run.
  rewrite (manifest_stays_stored E w original_name owner repo rest answer c text) by done.
  by rewrite Hy.
Qed.

Lemma fetch_package_after_install_witness :
  remote Sample.bot (api_root "acme" "widgets" +:+ "package.yml")
    = Some {| status_code := 200; content := Some "name: widgets" |} ∧
  writable (fs Sample.fresh) (manifest_path Sample.bot "widgets") ∧
  utf8 Sample.bot "name: widgets" = Some "name: widgets" ∧
  yaml Sample.bot "name: widgets" = Some Sample.widgets ∧
  plain_manifest Sample.widgets ∧
  run (fetch_package Sample.bot "widgets")
    (run (install_manifest Sample.bot (PStr "widgets") [PStr "acme"; PStr "widgets"])
       Sample.fresh).2 =
    (Returned (Some Sample.widgets),
     (run (install_manifest Sample.bot (PStr "widgets") [PStr "acme"; PStr "widgets"])
        Sample.fresh).2).
Proof.
  assert (Hwr : writable (fs Sample.fresh) (manifest_path Sample.bot "widgets")).
  { split; [reflexivity | vm_compute; discriminate]. }
  pose proof widgets_plain as Hplain.
  assert (Hall : forall manifest,
            yaml Sample.bot "name: widgets" = Some manifest -> plain_manifest manifest).
  { intros manifest Hm. injection Hm as <-. exact Hplain. }
  split; [reflexivity |]. split; [exact Hwr |]. split; [reflexivity |]. split; [reflexivity |].
  split; [exact Hplain |].
  exact (fetch_package_after_install Sample.bot Sample.fresh (PStr "widgets") "acme" "widgets" []
           _ "name: widgets" "name: widgets" Sample.widgets eq_refl eq_refl eq_refl Hwr
           eq_refl Hall eq_refl).
Defined.

(** ** Files in subdirectories *)

Lemma dirname_nonempty (c : ascii) (s : string) :
  Str.has_slash s = true -> Str.dirname (String c s) ≠ "".
Proof. intros Hs. simpl. by rewrite Hs. Qed.

Lemma installed_path_dirname_nonempty (E : env) (name f : string) :
  Str.dirname (installed_path E name f) ≠ "".
Proof.
  unfold installed_path, dir_type.
  destruct (ballsdex_present E); rewrite append_cons; apply dirname_nonempty.
  - change ("allsdex" +:+ "/packages/" +:+ name +:+ "/" +:+ f)
      with ("allsdex" +:+ "/" +:+ ("packages/" +:+ name +:+ "/" +:+ f)).
    apply has_slash_join.
  - change ("arfigures" +:+ "/packages/" +:+ name +:+ "/" +:+ f)
      with ("arfigures" +:+ "/" +:+ ("packages/" +:+ name +:+ "/" +:+ f)).
    apply has_slash_join.
Qed.

(** X19. A fresh install of a package whose first file lies in a
    subdirectory (a path of plain names): the directory of the package
    is made, the file is requested, and writing it raises
    [FileNotFoundError], for nothing makes the subdirectory.  The other
    files are not requested and the extension is not asked for. *)
Theorem install_files_nested_file (E : env) (w : world) (original_name : pyval)
    (owner repo : string) (manifest : Package) (embed : Embed) (t1 : Z)
    (name file text : string) (others : list string) :
  pkg_name manifest = Some name ->
  pkg_files manifest = Some (file :: others) ->
  plain_name name ->
  Forall plain_name (Str.split file "/") ->
  fs w !! (dir_type E +:+ "/packages") = Some Dir ->
  fs w !! package_dir E name = None ->
  fetched E (file_url owner repo name file) = Some text ->
  Str.dirname (installed_path E name file) ≠ package_dir E name ->
  fs w !! Str.dirname (installed_path E name file) = None ->
  run (install_files E original_name (api_root owner repo) manifest embed t1) w =
    (Raised (FileNotFoundError (installed_path E name file)),
     log (EvGet (file_url owner repo name file))
       (with_fs (<[package_dir E name := Dir]> (fs w)) w)).
Proof.
  intros Hname Hfiles [Hflat _] _ Hpk Hfresh Hfetch Hsub Hnone.
  unfold install_files. rewrite Hname, Hfiles. cbn -[String.append].
  fold (package_dir E name).
  unfold parent_error at 1. rewrite (package_dir_dirname E name Hflat), (is_dir_lookup _ _ Hpk).
  rewrite Hfresh. cbn -[String.append].
  unfold install_file. rewrite Hname. cbn -[String.append].
  unfold fetched, file_url in Hfetch.
  destruct (remote E _) as [r|]; [| done]. cbn -[String.append].
  destruct (status_code r =? request_codes_ok); [| done].
  unfold b64decode_content. destruct (content r) as [c|]; [| done]. cbn -[String.append].
  fold (installed_path E name file).
  unfold parent_error, is_dir, is_file.
  rewrite decide_False by apply installed_path_dirname_nonempty.
  rewrite lookup_insert_ne by done. rewrite Hnone. reflexivity.
Qed.

Lemma install_files_nested_file_witness :
  pkg_name Sample.tools = Some "tools" ∧
  pkg_files Sample.tools = Some ["sub/a.py"; "__init__.py"] ∧
  plain_name "tools" ∧
  Str.split "sub/a.py" "/" = ["sub"; "a.py"] ∧
  fs Sample.fresh !! (dir_type Sample.full_bot +:+ "/packages") = Some Dir ∧
  fs Sample.fresh !! package_dir Sample.full_bot "tools" = None ∧
  fetched Sample.full_bot (file_url "acme" "tools" "tools" "sub/a.py") = Some "pass" ∧
  Str.dirname (installed_path Sample.full_bot "tools" "sub/a.py")
    ≠ package_dir Sample.full_bot "tools" ∧
  fs Sample.fresh !! Str.dirname (installed_path Sample.full_bot "tools" "sub/a.py") = None ∧
  run (install_files Sample.full_bot (PStr "tools") (api_root "acme" "tools") Sample.tools
         (announcement (PStr "tools") Sample.tools 244476) 0) Sample.fresh =
    (Raised (FileNotFoundError "ballsdex/packages/tools/sub/a.py"),
     log (EvGet "https://api.github.com/repos/acme/tools/contents/tools/sub/a.py")
       (with_fs (<["ballsdex/packages/tools" := Dir]> (fs Sample.fresh)) Sample.fresh)).
Proof.
  assert (Hsub : Str.dirname (installed_path Sample.full_bot "tools" "sub/a.py")
                 ≠ package_dir Sample.full_bot "tools") by (vm_compute; discriminate).
  assert (Hname : plain_name "tools").
  { split; [reflexivity |]. split; [discriminate |]. split; discriminate. }
  assert (Hsegs : Forall plain_name (Str.split "sub/a.py" "/")).
  { change (Str.split "sub/a.py" "/") with ["sub"; "a.py"].
    repeat constructor; discriminate. }
  split; [reflexivity |]. split; [reflexivity |]. split; [exact Hname |].
  split; [reflexivity |]. split; [reflexivity |].
  split; [reflexivity |]. split; [reflexivity |]. split; [exact Hsub |].
  split; [reflexivity |].
  exact (install_files_nested_file Sample.full_bot Sample.fresh (PStr "tools") "acme" "tools"
           Sample.tools (announcement (PStr "tools") Sample.tools 244476) 0 "tools" "sub/a.py"
           "pass" ["__init__.py"] eq_refl eq_refl Hname Hsegs eq_refl eq_refl eq_refl Hsub
           eq_refl).
Defined.

(** ** Installing again *)

Lemma has_slash_append (a b : string) :
  Str.has_slash (a +:+ b) = Str.has_slash a || Str.has_slash b.
Proof.
  induction a as [|c a IH]; [done |]. rewrite append_cons. simpl.
  by destruct (Ascii.eqb c "/").
Qed.

Lemma manifest_path_dirname (E : env) (repo : string) :
  Str.has_slash repo = false ->
  Str.dirname (manifest_path E repo) = dir_type E +:+ "/data".
Proof.
  intros Hr. unfold manifest_path.
  transitivity (Str.dirname ((dir_type E +:+ "/data") +:+ "/" +:+ (repo +:+ ".yml"))).
  - by rewrite !append_assoc.
  - apply dirname_join. rewrite has_slash_append, Hr. done.
Qed.

Section Reinstall.

Variables (E : env) (original_name : pyval) (owner repo : string) (rest : list pyval).
Variables (answer : response) (c text : string) (manifest : Package).
Variables (name author : string) (files supported : list string) (col : Z).

Hypothesis flat_repo : Str.has_slash repo = false.
Hypothesis manifest_answer : remote E (api_root owner repo +:+ "package.yml") = Some answer.
Hypothesis manifest_ok : status_code answer = request_codes_ok.
Hypothesis manifest_content : content answer = Some c.
Hypothesis manifest_text : utf8 E c = Some text.
Hypothesis manifest_parsed : yaml E c = Some manifest.
Hypothesis manifest_name : pkg_name manifest = Some name.
Hypothesis manifest_author : pkg_author manifest = Some author.
Hypothesis manifest_files : pkg_files manifest = Some files.
Hypothesis manifest_supported : pkg_supported manifest = Some supported.
Hypothesis platform : dir_type E ∈ supported.
Hypothesis colour : color_from_str E ("#" +:+ default "03BAFC" (pkg_color manifest)) = Some col.
Hypothesis flat_name : Str.has_slash name = false.
Hypothesis flat_files :
  forall f, f ∈ files ->
    Str.has_slash f = false ∧
    (is_Some (failed_status E (file_url owner repo name f)) ∨
     is_Some (fetched E (file_url owner repo name f))).

Lemma installable_writable (w : world) :
  installable E repo name files w -> writable (fs w) (manifest_path E repo).
Proof.
  intros (Hdata & _ & Hnd & _). split; [| done].
  unfold parent_error. by rewrite (manifest_path_dirname E repo flat_repo), (is_dir_lookup _ _ Hdata).
Qed.

(** What the loop leaves alone: every path that is not the place of a
    file that downloads. *)
Lemma install_files_loop_frame (fl : list string) :
  forall w : world,
    fs w !! package_dir E name = Some Dir ->
    (forall f, f ∈ fl ->
       Str.has_slash f = false ∧
       fs w !! installed_path E name f ≠ Some Dir ∧
       (is_Some (failed_status E (file_url owner repo name f)) ∨
        is_Some (fetched E (file_url owner repo name f)))) ->
    forall k,
      (forall f, f ∈ fl -> is_Some (fetched E (file_url owner repo name f)) ->
         k ≠ installed_path E name f) ->
      fs (run (for_each fl (install_file E (api_root owner repo) manifest)) w).2 !! k = fs w !! k.
Proof.
  induction fl as [|f fl IH]; intros w Hdir Hfl k Hk; [done |].
  destruct (Hfl f) as (Hflat & Hnd & Hcase); [by left |].
  cbn [for_each]. unfold mbind, coro_bind. rewrite run_bind.
  destruct (failed_status E (file_url owner repo name f)) as [code|] eqn:Hfail.
  - rewrite (install_file_failed E owner repo name author manifest manifest_name manifest_author
               f code w Hfail).
    rewrite IH; [done | done | |].
    + intros g Hg. apply Hfl. by right.
    + intros g Hg. apply Hk. by right.
  - destruct Hcase as [[code Hc]|[t Hfetch]]; [congruence |].
    rewrite (install_file_fetched E owner repo name manifest manifest_name f t w Hfetch Hflat
               Hdir Hnd).
    rewrite IH.
    + simpl. apply lookup_insert_ne. intros Heq. apply (Hk f); [by left | eauto | done].
    + simpl. rewrite lookup_insert_ne; [done | apply installed_path_not_dir].
    + intros g Hg. destruct (Hfl g) as (Hgf & Hgn & Hgc); [by right |].
      split; [done |]. split; [| done]. simpl.
      destruct (decide (installed_path E name f = installed_path E name g)) as [Heq|Hne].
      * rewrite Heq, lookup_insert_eq. done.
      * by rewrite lookup_insert_ne.
    + intros g Hg. apply Hk. by right.
Qed.

Lemma failed_not_fetched (url : string) :
  is_Some (failed_status E url) -> is_Some (fetched E url) -> False.
Proof.
  unfold failed_status, fetched. intros [code Hc] [t Ht].
  destruct (remote E url); [| done]. by destruct (status_code _ =? _).
Qed.

(** The files after [install], from [mkdir] on. *)
Lemma install_files_fs (embed : Embed) (t1 : Z) (w : world) :
  fs w !! (dir_type E +:+ "/packages") = Some Dir ->
  is_file (fs w) (package_dir E name) = false ->
  (forall f, f ∈ files -> fs w !! installed_path E name f ≠ Some Dir) ->
  fs (run (install_files E original_name (api_root owner repo) manifest embed t1) w).2
    !! package_dir E name = Some Dir ∧
  (forall k,
     k ≠ package_dir E name ->
     (forall f, f ∈ files -> is_Some (fetched E (file_url owner repo name f)) ->
        k ≠ installed_path E name f) ->
     fs (run (install_files E original_name (api_root owner repo) manifest embed t1) w).2 !! k
       = fs w !! k).
Proof.
  intros Hpk Hnf Hnd.
  assert (Hmk : exists w1,
            run (try_except
                   (name ← attribute "name" (pkg_name manifest);
                    mkdir (dir_type E +:+ "/packages/" +:+ name))
                   (fun e => match e with FileExistsError _ => Some (Ret tt) | _ => None end)) w
              = (Returned tt, w1) ∧
            fs w1 !! package_dir E name = Some Dir ∧
            (forall k, k ≠ package_dir E name -> fs w1 !! k = fs w !! k)).
  { rewrite manifest_name. cbn -[String.append]. fold (package_dir E name).
    unfold parent_error. rewrite (package_dir_dirname E name flat_name), (is_dir_lookup _ _ Hpk).
    unfold is_file in Hnf.
    destruct (fs w !! package_dir E name) as [[|data]|] eqn:Hl; [| done |]; cbn -[String.append].
    - exists w. by repeat split.
    - eexists. split; [reflexivity |]. simpl.
      split; [by rewrite lookup_insert_eq |]. intros k Hk. by rewrite lookup_insert_ne. }
  destruct Hmk as (w1 & Hrun1 & Hdir1 & Hframe1).
  assert (Hloop : forall f, f ∈ files ->
            Str.has_slash f = false ∧
            fs w1 !! installed_path E name f ≠ Some Dir ∧
            (is_Some (failed_status E (file_url owner repo name f)) ∨
             is_Some (fetched E (file_url owner repo name f)))).
  { intros f Hf. destruct (flat_files f Hf) as [Hff Hfc]. split; [done |]. split; [| done].
    rewrite Hframe1; [by apply Hnd | apply installed_path_not_dir]. }
  destruct (install_files_loop E owner repo name author manifest manifest_name manifest_author
              files w1 Hdir1 Hloop) as (w2 & evs & Hrun2 & _ & _ & _ & Hdir2 & _ & _).
  pose proof (install_files_loop_frame files w1 Hdir1 Hloop) as Hframe2.
  rewrite Hrun2 in Hframe2. simpl in Hframe2.
  destruct (install_activate_run E name manifest manifest_name original_name embed t1 w2)
    as (_ & _ & _ & Hfs3 & _).
  assert (Hrun : run (install_files E original_name (api_root owner repo) manifest embed t1) w =
                 run (install_activate E original_name manifest embed t1) w2).
  { unfold install_files, mbind, coro_bind. rewrite run_bind.
    unfold mbind, coro_bind in Hrun1. rewrite Hrun1, manifest_files. cbn [attribute bind].
    by rewrite run_bind, Hrun2. }
  rewrite Hrun, Hfs3. split; [done |].
  intros k Hk Hfetched. rewrite Hframe2 by done. by apply Hframe1.
Qed.

(** The files after the whole of it. *)
Lemma install_fs (w : world) :
  installable E repo name files w ->
  fs (run (install_manifest E original_name (PStr owner :: PStr repo :: rest)) w).2 !! manifest_path E repo = Some (File text) ∧
  fs (run (install_manifest E original_name (PStr owner :: PStr repo :: rest)) w).2 !! package_dir E name = Some Dir ∧
  (forall f t, f ∈ files -> fetched E (file_url owner repo name f) = Some t ->
     fs (run (install_manifest E original_name (PStr owner :: PStr repo :: rest)) w).2 !! installed_path E name f = Some (File t)) ∧
  (forall k,
     k ≠ manifest_path E repo ->
     k ≠ package_dir E name ->
     (forall f, f ∈ files -> is_Some (fetched E (file_url owner repo name f)) ->
        k ≠ installed_path E name f) ->
     fs (run (install_manifest E original_name (PStr owner :: PStr repo :: rest)) w).2 !! k = fs w !! k) ∧
  (host_accepts E (fs (run (install_manifest E original_name (PStr owner :: PStr repo :: rest)) w).2) (module_name E name) = true ->
   is_Some (pkg_description manifest) ->
   (run (install_manifest E original_name (PStr owner :: PStr repo :: rest)) w).1 = Returned tt).
Proof.
  intros Hready. pose proof (installable_writable w Hready) as Hwr.
  destruct Hready as (Hdata & Hpk & Hnm & Hnf & Hnd).
  rewrite (install_manifest_stored E _ _ owner repo _ answer c text manifest) by done.
  rewrite (install_platform_supported E _ _ _ manifest _ supported col) by done.
  match goal with
  | |- context [run (install_files _ ?o _ _ ?e ?t) ?w3] =>
      assert (Hpk3 : fs w3 !! (dir_type E +:+ "/packages") = Some Dir);
      [| assert (Hnf3 : is_file (fs w3) (package_dir E name) = false);
         [| assert (Hnd3 : forall f, f ∈ files -> fs w3 !! installed_path E name f ≠ Some Dir);
            [| destruct (install_files_fs e t w3 Hpk3 Hnf3 Hnd3) as [Hdir Hframe];
               destruct (install_files_run E owner repo name author manifest manifest_name
                           manifest_author o e t files w3 manifest_files Hpk3 flat_name Hnf3)
                 as (evs & _ & _ & _ & Hon & Hret) ] ] ]
  end.
  - simpl. rewrite lookup_insert_ne; [done | apply manifest_path_not_packages_dir].
  - unfold is_file in *. simpl.
    rewrite lookup_insert_ne; [done | apply manifest_path_not_package_dir].
  - intros f Hf. simpl.
    rewrite lookup_insert_ne; [by apply Hnd | apply manifest_path_not_installed].
  - intros f Hf. destruct (flat_files f Hf) as [Hff Hfc]. split; [done |]. split; [| done].
    by apply Hnd3.
  - split; [| split; [done | split; [done | split; [| done]]]].
    + rewrite Hframe.
      * simpl. apply lookup_insert_eq.
      * apply manifest_path_not_package_dir.
      * intros f _ _. apply manifest_path_not_installed.
    + intros k Hk1 Hk2 Hk3. rewrite Hframe by done. simpl. by rewrite lookup_insert_ne.
Qed.

Lemma dir_type_data_outside (suffix : string) :
  suffix = "/data" ∨ suffix = "/packages" ->
  Str.startswith (dir_type E +:+ suffix) (dir_type E +:+ "/packages/") = false ∧
  Str.startswith (dir_type E +:+ suffix) (dir_type E +:+ "/data/") = false.
Proof. unfold dir_type. intros [-> | ->]; by destruct (ballsdex_present E). Qed.

(** The layout is still fit for an install after one. *)
Lemma installable_again (w : world) :
  installable E repo name files w ->
  installable E repo name files (run (install_manifest E original_name (PStr owner :: PStr repo :: rest)) w).2.
Proof.
  intros Hready.
  destruct (install_fs w Hready) as (Hm & Hd & Hon & Hframe & _).
  destruct Hready as (Hdata & Hpk & Hnm & Hnf & Hnd).
  assert (Hout : forall suffix, suffix = "/data" ∨ suffix = "/packages" ->
            fs (run (install_manifest E original_name (PStr owner :: PStr repo :: rest)) w).2 !! (dir_type E +:+ suffix)
              = fs w !! (dir_type E +:+ suffix)).
  { intros suffix Hsuf. destruct (dir_type_data_outside suffix Hsuf) as [Hp Hdt].
    apply (stepwise_run (keeps_path (dir_type E +:+ suffix))). by apply install_manifest_keeps_path. }
  split; [rewrite Hout; [done | by left] |].
  split; [rewrite Hout; [done | by right] |].
  split; [by rewrite Hm |]. split; [unfold is_file; by rewrite Hd |].
  intros f Hf. destruct (flat_files f Hf) as [_ [Hfail|[t Hfetch]]].
  - rewrite Hframe; [by apply Hnd | | apply installed_path_not_dir |].
    + intros Heq. by apply (manifest_path_not_installed E repo name f).
    + intros g Hg Hfg Heq. apply installed_path_inj in Heq as ->.
      by apply (failed_not_fetched (file_url owner repo name g)).
  - by rewrite (Hon f t Hf Hfetch).
Qed.

(** X20. The code of [install] from the request for the manifest on
    (line 248), run a second time for the same flat package: the files
    are exactly what the first run left (the manifest, the directory,
    every file that downloads), and the directory that is there already
    is no error: when the bot takes the extension and the manifest has a
    description, the second run returns. *)
Theorem reinstall_same_files (w : world) :
  plain_name repo ->
  plain_name name ->
  (forall f, f ∈ files -> plain_name f) ->
  installable E repo name files w ->
  fs (run (install_manifest E original_name (PStr owner :: PStr repo :: rest)) (run (install_manifest E original_name (PStr owner :: PStr repo :: rest)) w).2).2 = fs (run (install_manifest E original_name (PStr owner :: PStr repo :: rest)) w).2 ∧
  (host_accepts E (fs (run (install_manifest E original_name (PStr owner :: PStr repo :: rest)) w).2) (module_name E name) = true ->
   is_Some (pkg_description manifest) ->
   (run (install_manifest E original_name (PStr owner :: PStr repo :: rest)) (run (install_manifest E original_name (PStr owner :: PStr repo :: rest)) w).2).1 = Returned tt).
Proof.
  intros _ _ _ Hready.
  pose proof (installable_again w Hready) as Hready1.
  destruct (install_fs w Hready) as (Hm & Hd & Hon & _ & _).
  destruct (install_fs _ Hready1) as (Hm' & Hd' & Hon' & Hframe' & Hret').
  assert (Hfs : fs (run (install_manifest E original_name (PStr owner :: PStr repo :: rest)) (run (install_manifest E original_name (PStr owner :: PStr repo :: rest)) w).2).2 = fs (run (install_manifest E original_name (PStr owner :: PStr repo :: rest)) w).2).
  { apply map_eq. intros k.
    destruct (decide (k = manifest_path E repo)) as [->|Hk1]; [by rewrite Hm, Hm' |].
    destruct (decide (k = package_dir E name)) as [->|Hk2]; [by rewrite Hd, Hd' |].
    destruct (decide (Exists (fun f => is_Some (fetched E (file_url owner repo name f)) ∧
                                       k = installed_path E name f) files)) as [Hex|Hno].
    - apply Exists_exists in Hex as (f & Hf & [t Ht] & ->).
      by rewrite (Hon f t Hf Ht), (Hon' f t Hf Ht).
    - rewrite Hframe'; [done | done | done |].
      intros f Hf Hfetch Heq. apply Hno. apply Exists_exists. eauto. }
  split; [exact Hfs |]. intros Hok Hdesc. apply Hret'; [by rewrite Hfs | done].
Qed.

End Reinstall.

Lemma reinstall_same_files_witness :
  yaml Sample.bot "name: widgets" = Some Sample.widgets ∧
  pkg_files Sample.widgets = Some ["__init__.py"; "cog.py"; "extra.py"] ∧
  dir_type Sample.bot ∈ ["ballsdex"] ∧
  plain_name "widgets" ∧
  (forall f, f ∈ ["__init__.py"; "cog.py"; "extra.py"] -> plain_name f) ∧
  installable Sample.bot "widgets" "widgets" ["__init__.py"; "cog.py"; "extra.py"] Sample.fresh ∧
  fs (run (install_manifest Sample.bot (PStr "widgets") [PStr "acme"; PStr "widgets"])
        (run (install_manifest Sample.bot (PStr "widgets") [PStr "acme"; PStr "widgets"])
           Sample.fresh).2).2
    = fs (run (install_manifest Sample.bot (PStr "widgets") [PStr "acme"; PStr "widgets"])
            Sample.fresh).2 ∧
  (run (install_manifest Sample.bot (PStr "widgets") [PStr "acme"; PStr "widgets"])
     (run (install_manifest Sample.bot (PStr "widgets") [PStr "acme"; PStr "widgets"])
        Sample.fresh).2).1 = Returned tt.
Proof.
  assert (Hname : plain_name "widgets").
  { split; [reflexivity |]. split; [discriminate |]. split; discriminate. }
  assert (Hplain : forall f, f ∈ ["__init__.py"; "cog.py"; "extra.py"] -> plain_name f).
  { intros f Hf.
    repeat (apply elem_of_cons in Hf as [->|Hf]); [| | | by apply elem_of_nil in Hf];
      (split; [reflexivity |]; split; [discriminate |]; split; discriminate). }
  assert (Hin : dir_type Sample.bot ∈ ["ballsdex"]) by apply list_elem_of_here.
  assert (Hall : forall f, f ∈ ["__init__.py"; "cog.py"; "extra.py"] ->
            Str.has_slash f = false ∧
            (is_Some (failed_status Sample.bot (file_url "acme" "widgets" "widgets" f)) ∨
             is_Some (fetched Sample.bot (file_url "acme" "widgets" "widgets" f)))).
  { intros f Hf.
    repeat (apply elem_of_cons in Hf as [->|Hf]); [| | | by apply elem_of_nil in Hf];
      (split; [reflexivity |]).
    - right. eexists. reflexivity.
    - right. eexists. reflexivity.
    - left. eexists. reflexivity. }
  assert (Hready : installable Sample.bot "widgets" "widgets" ["__init__.py"; "cog.py"; "extra.py"]
                     Sample.fresh).
  { split; [reflexivity |]. split; [reflexivity |]. split; [vm_compute; discriminate |].
    split; [reflexivity |]. intros f Hf.
    repeat (apply elem_of_cons in Hf as [->|Hf]); [| | | by apply elem_of_nil in Hf];
      vm_compute; discriminate. }
  split; [reflexivity |]. split; [reflexivity |]. split; [exact Hin |].
  split; [exact Hname |]. split; [exact Hplain |]. split; [exact Hready |].
  destruct (reinstall_same_files Sample.bot (PStr "widgets") "acme" "widgets" []
              {| status_code := 200; content := Some "name: widgets" |} "name: widgets"
              "name: widgets" Sample.widgets "widgets" "acme" ["__init__.py"; "cog.py"; "extra.py"]
              ["ballsdex"] 244476 eq_refl eq_refl eq_refl eq_refl eq_refl eq_refl eq_refl eq_refl
              eq_refl eq_refl Hin eq_refl eq_refl Hall Sample.fresh
              Hname Hname Hplain Hready) as [Hfs Hret].
  split; [exact Hfs |]. apply Hret; [reflexivity | by eexists].
Defined.

Lemma raw_reference_link_witness :
  Str.has_slash "acme" = false ∧
  Str.has_slash "widgets" = false ∧
  Str.startswith ("https://github.com/" +:+ "acme" +:+ "/" +:+ "widgets") "https://github.com/"
    = true ∧
  link_segments ("https://github.com/" +:+ "acme" +:+ "/" +:+ "widgets") = ["acme"; "widgets"] ∧
  raw_reference ("https://github.com/" +:+ "acme" +:+ "/" +:+ "widgets").
Proof.
  split; [reflexivity |]. split; [reflexivity |].
  exact (raw_reference_link "acme" "widgets" eq_refl eq_refl).
Defined.
